(** * The chat application's HTTP client layer

    A shallow embedding of [ApiErrorHandler], [ApiChatService] and
    [ApiAuthService]: the request pipeline ([makeRequest]), the error
    normalizer ([handle]) and the public operations built on them.

    JavaScript values are an inductive type, the token store and the calls
    made to the outside (network, console) are explicit state, and the
    bodies of the [async] methods are written in a small monad whose
    completions distinguish [return v], [return <promise>] and [throw]. *)

From Stdlib Require Import String Ascii ZArith List Bool Lia DecimalString.
Import ListNotations.
Local Open Scope string_scope.
Local Open Scope Z_scope.
Set Warnings "-register-all".

(* ================================================================== *)
(** ** JavaScript values *)
(* ================================================================== *)

Module Js.

(** The values the clients handle: what [JSON.parse] produces, the text of a
    non-JSON body, and [Error] instances.  An [Error] instance keeps the
    [name] of its prototype and its [message] apart from the properties
    assigned to it later ([status], [body]).  Numbers are the safe integers
    (status codes and the like, of magnitude below 2^53); fractional and
    larger JSON numbers are outside the model. *)
Inductive value : Type :=
| VUndefined
| VNull
| VBool (b : bool)
| VNum (n : Z)
| VStr (s : string)
| VArr (xs : list value)
| VObj (props : list (string * value))
| VError (name message : string) (props : list (string * value)).

(** [typeof v] *)
Definition typeof (v : value) : string :=
  match v with
  | VUndefined => "undefined"
  | VNull => "object"
  | VBool _ => "boolean"
  | VNum _ => "number"
  | VStr _ => "string"
  | VArr _ | VObj _ | VError _ _ _ => "object"
  end.

(** ToBoolean: the test of [if (v)], [!v], [a && b], [a || b]. *)
Definition truthy (v : value) : bool :=
  match v with
  | VUndefined | VNull => false
  | VBool b => b
  | VNum n => negb (n =? 0)
  | VStr s => negb (s =? "")%string
  | VArr _ | VObj _ | VError _ _ _ => true
  end.

(** [a || b] *)
Definition or_else (a b : value) : value := if truthy a then a else b.

(** [s || d] on strings *)
Definition or_string (s d : string) : string :=
  if (s =? "")%string then d else s.

(** Number::toString for a safe integer: its decimal digits.  (Beyond 2^53
    a Number is no longer the integer written, and from 10^21 on it is
    printed with an exponent; the model has no such numbers.) *)
Definition string_of_number (n : Z) : string :=
  NilZero.string_of_int (Z.to_int n).

(** [Error.prototype.toString] *)
Definition error_to_string (name message : string) : string :=
  if (name =? "")%string then message
  else if (message =? "")%string then name
  else name ++ ": " ++ message.

(** ToString, as applied by template literals and by [Array.prototype.join]. *)
Fixpoint to_string (v : value) : string :=
  match v with
  | VUndefined => "undefined"
  | VNull => "null"
  | VBool true => "true"
  | VBool false => "false"
  | VNum n => string_of_number n
  | VStr s => s
  | VArr xs =>
      String.concat ","
        (map (fun x => match x with
                       | VUndefined | VNull => ""
                       | _ => to_string x
                       end) xs)
  | VObj _ => "[object Object]"
  | VError name message _ => error_to_string name message
  end.

(** [xs.join(sep)]: [null] and [undefined] elements give the empty string. *)
Definition join (sep : string) (xs : list value) : string :=
  String.concat sep
    (map (fun x => match x with
                   | VUndefined | VNull => ""
                   | _ => to_string x
                   end) xs).

(** Own properties, as an association list read from the front. *)
Fixpoint lookup (k : string) (props : list (string * value)) : option value :=
  match props with
  | [] => None
  | (k', v) :: rest => if (k' =? k)%string then Some v else lookup k rest
  end.

(** [o[k] = v] on a property list: overwrite in place or append. *)
Fixpoint assign (props : list (string * value)) (k : string) (v : value)
  : list (string * value) :=
  match props with
  | [] => [(k, v)]
  | (k', v') :: rest =>
      if (k' =? k)%string then (k', v) :: rest else (k', v') :: assign rest k v
  end.

(** [v.k] for a [v] that is neither [null] nor [undefined]; the clients read
    only [error], [errors], [token], [user], [message] and [status], which
    no primitive and no array carries. *)
Definition get (v : value) (k : string) : value :=
  match v with
  | VObj props =>
      match lookup k props with Some x => x | None => VUndefined end
  | VError name message props =>
      if (k =? "message")%string then VStr message
      else if (k =? "name")%string then VStr name
      else match lookup k props with Some x => x | None => VUndefined end
  | _ => VUndefined
  end.

(** [v.k = x] on an object created by the program. *)
Definition set (v : value) (k : string) (x : value) : value :=
  match v with
  | VObj props => VObj (assign props k x)
  | VError name message props => VError name message (assign props k x)
  | _ => v
  end.

Definition nullish (v : value) : bool :=
  match v with
  | VUndefined | VNull => true
  | _ => false
  end.

(** [v === n] for a number literal [n] *)
Definition strict_eq_num (v : value) (n : Z) : bool :=
  match v with
  | VNum m => m =? n
  | _ => false
  end.

(** [v?.k] *)
Definition get_opt (v : value) (k : string) : value :=
  if nullish v then VUndefined else get v k.

(** [new Error(message)] *)
Definition new_Error (message : string) : value := VError "Error" message [].

(** The [TypeError] of a property read on [null] or [undefined]
    (V8's wording). *)
Definition TypeError_read (v : value) (k : string) : value :=
  VError "TypeError"
    ("Cannot read properties of " ++ to_string v ++ " (reading '" ++ k ++ "')")
    [].

(** [s.startsWith(p)] *)
Definition startsWith (s p : string) : bool := String.prefix p s.

(** [s.includes(p)] *)
Fixpoint includes (s p : string) : bool :=
  String.prefix p s
  || match s with
     | EmptyString => false
     | String _ rest => includes rest p
     end.

(** ASCII lower-casing, as [Headers] applies to header names. *)
Definition lower_ascii (c : ascii) : ascii :=
  let n := nat_of_ascii c in
  if ((65 <=? n) && (n <=? 90))%nat then ascii_of_nat (n + 32) else c.

Fixpoint lower (s : string) : string :=
  match s with
  | EmptyString => EmptyString
  | String c rest => String (lower_ascii c) (lower rest)
  end.

End Js.
Import Js.

(* ================================================================== *)
(** ** ApiErrorHandler *)
(* ================================================================== *)

Module ApiErrorHandler.

Definition unexpected : string :=
  "An unexpected error occurred. Please try again later.".

Definition msg400 : string :=
  "Invalid request parameters. Please check your input.".
Definition msg401 : string :=
  "Authentication required. Please log in again.".
Definition msg403 : string :=
  "You do not have permission to perform this action.".
Definition msg404 : string :=
  "The requested resource could not be found.".
Definition msg422 : string :=
  "Validation failed. Please correct the highlighted fields.".
Definition msg500 : string :=
  "A server error occurred. Please try again later.".

(** [switch (err.status)]: strict equality with each case label in turn;
    no [default] case, so the initial [message] stays. *)
Definition switch_status (status : value) (message : string) : string :=
  match status with
  | VNum n =>
      if n =? 400 then msg400
      else if n =? 401 then msg401
      else if n =? 403 then msg403
      else if n =? 404 then msg404
      else if n =? 422 then msg422
      else if n =? 500 then msg500
      else message
  | _ => message
  end.

(** [static handle(error: unknown): string] *)
Definition handle (error : value) : string :=
  let message := unexpected in
  if truthy error && (typeof error =? "object")%string then
    switch_status (get error "status") message
  else if (typeof error =? "string")%string then
    to_string error
  else message.

End ApiErrorHandler.

(* ================================================================== *)
(** ** Effects: the world, promises and async function bodies *)
(* ================================================================== *)

Module Async.

(** A settled promise. *)
Inductive promise (A : Type) : Type :=
| Fulfilled (a : A)
| Rejected (reason : value).
Arguments Fulfilled {A} a.
Arguments Rejected {A} reason.

(** [Headers]: (lower-cased name, normalized value) entries in insertion
    order.  The constructor, [append] and [set] normalize a value by
    stripping the HTTP whitespace around it, and throw a [TypeError] on a
    name that is not a token or a value holding NUL, CR or LF.  The
    normalization is modelled; the [TypeError] is not: [valid_header_name]
    and [valid_header_value] say when it does not arise, and the properties
    that depend on it take them as hypotheses.  Strings here are byte
    strings, as header names and values must be. *)
Definition Headers : Type := list (string * string).

(** HTTP whitespace: tab, line feed, carriage return, space. *)
Definition http_whitespace (c : ascii) : bool :=
  let n := nat_of_ascii c in
  (Nat.eqb n 9 || Nat.eqb n 10 || Nat.eqb n 13 || Nat.eqb n 32)%bool.

Fixpoint trim_start (s : string) : string :=
  match s with
  | EmptyString => EmptyString
  | String c rest => if http_whitespace c then trim_start rest else s
  end.

Fixpoint trim_end (s : string) : string :=
  match s with
  | EmptyString => EmptyString
  | String c rest =>
      let r := trim_end rest in
      if ((r =? "")%string && http_whitespace c)%bool then EmptyString
      else String c r
  end.

(** A header value with the HTTP whitespace around it removed. *)
Definition normalize_value (v : string) : string := trim_end (trim_start v).

(** A header value, once normalized, is accepted unless it holds NUL, LF
    or CR. *)
Definition valid_header_value (v : string) : bool :=
  forallb (fun c =>
             let n := nat_of_ascii c in
             negb (Nat.eqb n 0 || Nat.eqb n 10 || Nat.eqb n 13))
    (list_ascii_of_string (normalize_value v)).

(** A header name is a non-empty token: letters, digits and a few signs. *)
Definition token_char (c : ascii) : bool :=
  let n := nat_of_ascii c in
  ((Nat.leb 48 n && Nat.leb n 57)
   || (Nat.leb 65 n && Nat.leb n 90)
   || (Nat.leb 97 n && Nat.leb n 122)
   || existsb (Nat.eqb n)
        [33; 35; 36; 37; 38; 39; 42; 43; 45; 46; 94; 95; 96; 124; 126]%nat)%bool.

Definition valid_header_name (name : string) : bool :=
  (negb (name =? "")%string
   && forallb token_char (list_ascii_of_string name))%bool.

(** [new Headers(record)]: one entry per property, in enumeration order. *)
Definition new_Headers (init : list (string * string)) : Headers :=
  map (fun p => (lower (fst p), normalize_value (snd p))) init.

Definition named (name : string) (p : string * string) : bool :=
  (fst p =? lower name)%string.

(** [h.has(name)] *)
Definition headers_has (h : Headers) (name : string) : bool :=
  existsb (named name) h.

(** [h.get(name)]: the values under that name joined with ", ",
    [None] for [null]. *)
Definition headers_get (h : Headers) (name : string) : option string :=
  match map snd (filter (named name) h) with
  | [] => None
  | vs => Some (String.concat ", " vs)
  end.

(** The first entry under [name] takes the value [v], the others go. *)
Fixpoint set_first (h : Headers) (name v : string) : Headers :=
  match h with
  | [] => []
  | p :: rest =>
      if named name p
      then (fst p, v) :: filter (fun q => negb (named name q)) rest
      else p :: set_first rest name v
  end.

(** [h.set(name, v)] *)
Definition headers_set (h : Headers) (name v : string) : Headers :=
  if headers_has h name then set_first h name (normalize_value v)
  else (h ++ [(lower name, normalize_value v)])%list.

(** What a caller may give as [options.headers] ([HeadersInit]): a plain
    object, given by its entries in enumeration order; an array of
    name-value pairs; or a [Headers] object. *)
Inductive HeadersInit : Type :=
| HeadersRecord (entries : list (string * string))
| HeadersPairs (pairs : list (list string))
| HeadersInstance (h : Headers).

(** The [options] a method hands to [makeRequest]. *)
Record RequestInit : Type := {
  method : option string;
  body : option string;
  headers : option HeadersInit;
  credentials : option string
}.

(** [options: RequestInit = {}] *)
Definition no_options : RequestInit :=
  {| method := None; body := None; headers := None; credentials := None |}.

(** The init object [makeRequest] hands to [fetch]. *)
Record FetchInit : Type := {
  fi_method : option string;
  fi_body : option string;
  fi_headers : Headers;
  fi_credentials : option string
}.

(** A [Response]: [json] and [text] are the promises [resp.json()] and
    [resp.text()] return. *)
Record Response : Type := {
  status : Z;
  statusText : string;
  resp_headers : Headers;
  json : promise value;
  text : promise string
}.

(** [resp.ok]: the status is in the range 200-299 (Fetch standard). *)
Definition ok (resp : Response) : bool :=
  (200 <=? status resp) && (status resp <=? 299).

(** What the program does to the outside, oldest first. *)
Inductive event : Type :=
| Fetch (url : string) (init : FetchInit)
| SetToken (t : value)
| ClearToken
| Console (level text : string) (arg : value).

(** The stored token and the calls made so far. *)
Record world : Type := {
  token : value;
  trace : list event
}.

Definition emit (ev : event) (w : world) : world :=
  {| token := token w; trace := (trace w ++ [ev])%list |}.

(** How the evaluation of a piece of a function body ends. *)
Inductive completion (A : Type) : Type :=
| Normal (a : A)
| Return (v : value)
| ReturnPromise (p : promise value)
| Throw (e : value).
Arguments Normal {A} a.
Arguments Return {A} v.
Arguments ReturnPromise {A} p.
Arguments Throw {A} e.

Definition js (A : Type) : Type := world -> completion A * world.

Definition ret {A} (a : A) : js A := fun w => (Normal a, w).

Definition bind {A B} (c : js A) (k : A -> js B) : js B :=
  fun w =>
    match c w with
    | (Normal a, w') => k a w'
    | (Return v, w') => (Return v, w')
    | (ReturnPromise p, w') => (ReturnPromise p, w')
    | (Throw e, w') => (Throw e, w')
    end.

(** [throw e] *)
Definition throw {A} (e : value) : js A := fun w => (Throw e, w).

(** [return v] for a value that is not a promise *)
Definition return_ {A} (v : value) : js A := fun w => (Return v, w).

(** [return p] for a promise [p]: the function's own promise adopts [p]
    once the body has been left. *)
Definition return_promise {A} (p : promise value) : js A :=
  fun w => (ReturnPromise p, w).

(** [await p]: the value of a fulfilled promise; a rejected one throws
    its reason at the place of the [await]. *)
Definition await {A} (p : promise A) : js A :=
  fun w =>
    match p with
    | Fulfilled a => (Normal a, w)
    | Rejected e => (Throw e, w)
    end.

(** [try { block } catch (e) { handler e }] *)
Definition try_catch {A} (block : js A) (handler : value -> js A) : js A :=
  fun w =>
    match block w with
    | (Throw e, w') => handler e w'
    | r => r
    end.

(** [try { block } catch (e) { handler e } finally { finalizer }]: the
    finalizer runs whatever the completion, which it replaces only when it
    is abrupt itself. *)
Definition try_catch_finally {A} (block : js A) (handler : value -> js A)
    (finalizer : js unit) : js A :=
  fun w =>
    let (c, w1) := try_catch block handler w in
    match finalizer w1 with
    | (Normal _, w2) => (c, w2)
    | (Return v, w2) => (Return v, w2)
    | (ReturnPromise p, w2) => (ReturnPromise p, w2)
    | (Throw e, w2) => (Throw e, w2)
    end.

(** A call of an async function, run until its promise settles.  No method
    does anything between obtaining a promise and awaiting or returning it,
    so nothing is interleaved with the callee. *)
Definition async (A : Type) : Type := world -> promise A * world.

(** [async f(...) { body }] *)
Definition async_function (body : js unit) : async value :=
  fun w =>
    match body w with
    | (Normal _, w') => (Fulfilled VUndefined, w')
    | (Return v, w') => (Fulfilled v, w')
    | (ReturnPromise p, w') => (p, w')
    | (Throw e, w') => (Rejected e, w')
    end.

(** The call expression [f(...)]: evaluates to the promise. *)
Definition call {A} (f : async A) : js (promise A) :=
  fun w => let (p, w') := f w in (Normal p, w').

(** [v.k]: a [TypeError] on [null] and [undefined]. *)
Definition member (v : value) (k : string) : js value :=
  if nullish v then throw (TypeError_read v k) else ret (get v k).

(** [console.error(text, arg)], [console.warn(text, arg)] *)
Definition console_error (text : string) (arg : value) : js unit :=
  fun w => (Normal tt, emit (Console "error" text arg) w).

Definition console_warn (text : string) (arg : value) : js unit :=
  fun w => (Normal tt, emit (Console "warn" text arg) w).

(** What the platform provides: the network behind [fetch], and the two
    string functions the methods call. *)
Record platform : Type := {
  network : string -> FetchInit -> promise Response;
  JSON_stringify : value -> string;
  encodeURIComponent : string -> string
}.

(** [fetch(url, init)] *)
Definition fetch (P : platform) (url : string) (init : FetchInit)
  : js (promise Response) :=
  fun w => (Normal (network P url init), emit (Fetch url init) w).

(** [o[k] = v] on a string-valued record: overwrite in place or append. *)
Fixpoint put (o : list (string * string)) (k v : string)
  : list (string * string) :=
  match o with
  | [] => [(k, v)]
  | (k', v') :: rest =>
      if (k' =? k)%string then (k', v) :: rest else (k', v') :: put rest k v
  end.

(** The array index a property name denotes, if any: a canonical decimal
    numeral below 2^32 - 1. *)
Definition array_index (k : string) : option N :=
  match NilEmpty.uint_of_string k with
  | Some u =>
      if ((NilZero.string_of_uint (Decimal.unorm u) =? k)%string
          && (N.of_uint u <? 4294967295)%N)%bool
      then Some (N.of_uint u)
      else None
  | None => None
  end.

Definition is_index (p : string * string) : bool :=
  match array_index (fst p) with
  | Some _ => true
  | None => false
  end.

Definition index_of (p : string * string) : N :=
  match array_index (fst p) with
  | Some i => i
  | None => 0%N
  end.

Fixpoint insert_by_index (p : string * string) (l : list (string * string))
  : list (string * string) :=
  match l with
  | [] => [p]
  | q :: rest =>
      if (index_of p <=? index_of q)%N then p :: l
      else q :: insert_by_index p rest
  end.

(** The order in which an object lists its own properties: array indices
    in ascending order, then the other names in order of creation. *)
Definition enumeration_order (o : list (string * string))
  : list (string * string) :=
  (fold_right insert_by_index [] (filter is_index o)
     ++ filter (fun p => negb (is_index p)) o)%list.

Fixpoint indexed (i : nat) (pairs : list (list string))
  : list (string * string) :=
  match pairs with
  | [] => []
  | element :: rest =>
      (string_of_number (Z.of_nat i), String.concat "," element)
        :: indexed (S i) rest
  end.

(** The own enumerable properties a spread copies, as [new Headers] will
    read them: the entries of a plain object; the elements of an array
    under their indices, each pair as the string [name,value]; none for a
    [Headers] object. *)
Definition own_entries (init : HeadersInit) : list (string * string) :=
  match init with
  | HeadersRecord entries => entries
  | HeadersPairs pairs => indexed 0 pairs
  | HeadersInstance _ => []
  end.

(** Object spread [{...o, ...extra}] *)
Definition spread (o : list (string * string)) (extra : option HeadersInit)
  : list (string * string) :=
  match extra with
  | None => o
  | Some init =>
      enumeration_order
        (fold_left (fun acc p => put acc (fst p) (snd p)) (own_entries init) o)
  end.

End Async.
Import Async.

Declare Scope js_scope.
Delimit Scope js_scope with js.
Notation "x <- c ;; k" := (bind c (fun x => k))
  (at level 61, c at next level, right associativity) : js_scope.
Notation "c ;; k" := (bind c (fun _ => k))
  (at level 61, right associativity) : js_scope.
Local Open Scope js_scope.

(* ================================================================== *)
(** ** TokenManager *)
(* ================================================================== *)

Module TokenManager.

(** Modelled from the spec: the [TokenManager] class is not part of the
    sources at hand.  The token store "exposes get-token, set-token,
    clear-token; single shared instance; no expiry logic": one cell, which
    [setToken] overwrites, [clearToken] empties ([null]) and [getToken]
    reads.  The two writes are recorded in the trace. *)
Definition getToken : js value :=
  fun w => (Normal (token w), w).

Definition setToken (t : value) : js unit :=
  fun w => (Normal tt, {| token := t; trace := (trace w ++ [SetToken t])%list |}).

Definition clearToken : js unit :=
  fun w => (Normal tt, {| token := VNull; trace := (trace w ++ [ClearToken])%list |}).

End TokenManager.

(* ================================================================== *)
(** ** ApiChatService *)
(* ================================================================== *)

Module ApiChatService.

Record ApiChatServiceConfig : Type := {
  cfg_baseUrl : string;
  cfg_timeout : Z;
  cfg_retryAttempts : Z
}.

(** An instance: [tokenManager] is the shared store held by the world. *)
Record t : Type := { baseUrl : string }.

(** [constructor(config)] *)
Definition new (config : ApiChatServiceConfig) : t :=
  {| baseUrl := cfg_baseUrl config |}.

Section Methods.

Variable P : platform.
Variable this : t.

(** [private buildUrl(endpoint)] *)
Definition buildUrl (endpoint : string) : string :=
  baseUrl this ++ (if startsWith endpoint "/" then endpoint else "/" ++ endpoint).

(** [private extractErrorMessage(statusText, payload)] *)
Definition extractErrorMessage (statusText : string) (payload : value) : string :=
  if negb (truthy payload) then or_string statusText "Request failed"
  else
    let e := get payload "error" in
    let es := get payload "errors" in
    if truthy e && (typeof e =? "string")%string then to_string e
    else
      match es with
      | VArr xs =>
          if negb (Z.of_nat (length xs) =? 0) then join "; " xs
          else or_string statusText "Request failed"
      | _ => or_string statusText "Request failed"
      end.

(** [private async makeRequest<T>(endpoint, options = {})] *)
Definition makeRequest (endpoint : string) (options : RequestInit) : async value :=
  async_function (
    let url := buildUrl endpoint in
    let headers0 :=
      new_Headers (spread [("Content-Type", "application/json")] (headers options)) in
    token <- TokenManager.getToken ;;
    let headers1 :=
      if truthy token && negb (headers_has headers0 "Authorization")
      then headers_set headers0 "Authorization" ("Bearer " ++ to_string token)
      else headers0 in
    resp <- try_catch
              (p <- fetch P url
                      {| fi_method := method options;
                         fi_body := body options;
                         fi_headers := headers1;
                         fi_credentials := credentials options |} ;;
               await p)
              (fun fetchError =>
                 console_error
                   ("[makeRequest] Network error while fetching " ++ url ++ ":")
                   fetchError ;;
                 m <- member fetchError "message" ;;
                 throw (new_Error
                          ("Network request failed: "
                             ++ to_string (or_else m fetchError)))) ;;
    let ct :=
      match headers_get (resp_headers resp) "content-type" with
      | Some s => or_string s ""
      | None => ""
      end in
    let isJson := includes ct "application/json" in
    payload <-
      (if isJson then
         try_catch
           (jsonData <- await (json resp) ;; ret jsonData)
           (fun jsonError =>
              console_warn
                ("[makeRequest] Failed to parse JSON from " ++ url ++ ":")
                jsonError ;;
              ret VNull)
       else
         try_catch
           (textData <- await (text resp) ;; ret (VStr textData))
           (fun textError =>
              console_warn
                ("[makeRequest] Failed to read text body from " ++ url ++ ":")
                textError ;;
              ret VNull)) ;;
    if negb (ok resp) then
      let message := extractErrorMessage (statusText resp) payload in
      let err := new_Error message in
      let err := set err "status" (VNum (status resp)) in
      let err := set err "body" payload in
      throw err
    else return_ payload).

Definition request (m : string) (b : option string) : RequestInit :=
  {| method := Some m; body := b; headers := None; credentials := None |}.

(** The [catch] clause every method carries. *)
Definition normalize {A} (error : value) : js A :=
  let message := ApiErrorHandler.handle error in
  throw (new_Error message).

(** [async getConversations()]: the promise is returned, not awaited. *)
Definition getConversations : async value :=
  async_function (
    try_catch
      (p <- call (makeRequest "/conversations" (request "GET" None)) ;;
       return_promise p)
      normalize).

(** [async getConversation(id)] *)
Definition getConversation (id : string) : async value :=
  async_function (
    try_catch
      (p <- call (makeRequest ("/conversations/" ++ encodeURIComponent P id)
                    (request "GET" None)) ;;
       return_promise p)
      normalize).

(** [async createConversation(request)] *)
Definition createConversation (req : value) : async value :=
  async_function (
    try_catch
      (p <- call (makeRequest "/conversations"
                    (request "POST" (Some (JSON_stringify P req)))) ;;
       return_promise p)
      normalize).

(** [async updateConversation(id, request)] *)
Definition updateConversation (id : string) (req : value) : async value :=
  async_function (throw (new_Error "updateConversation method not implemented")).

(** [async deleteConversation(id)] *)
Definition deleteConversation (id : string) : async value :=
  async_function (throw (new_Error "deleteConversation method not implemented")).

(** [async getMessages(conversationId)] *)
Definition getMessages (conversationId : string) : async value :=
  async_function (
    try_catch
      (p <- call (makeRequest
                    ("/conversations/" ++ encodeURIComponent P conversationId
                       ++ "/messages")
                    (request "GET" None)) ;;
       return_promise p)
      normalize).

(** [async sendMessage(request)] *)
Definition sendMessage (req : value) : async value :=
  async_function (
    try_catch
      (p <- call (makeRequest "/messages"
                    (request "POST" (Some (JSON_stringify P req)))) ;;
       return_promise p)
      normalize).

(** [async markMessageAsRead(messageId)] *)
Definition markMessageAsRead (messageId : string) : async value :=
  async_function (throw (new_Error "markMessageAsRead method not implemented")).

(** [async getExpertQueue()] *)
Definition getExpertQueue : async value :=
  async_function (
    try_catch
      (p <- call (makeRequest "/expert/queue" (request "GET" None)) ;;
       return_promise p)
      normalize).

(** [async claimConversation(conversationId)]: awaited, nothing returned. *)
Definition claimConversation (conversationId : string) : async value :=
  async_function (
    try_catch
      (p <- call (makeRequest
                    ("/expert/conversations/"
                       ++ encodeURIComponent P conversationId ++ "/claim")
                    (request "POST" None)) ;;
       _ <- await p ;;
       ret tt)
      normalize).

(** [async unclaimConversation(conversationId)] *)
Definition unclaimConversation (conversationId : string) : async value :=
  async_function (
    try_catch
      (p <- call (makeRequest
                    ("/expert/conversations/"
                       ++ encodeURIComponent P conversationId ++ "/unclaim")
                    (request "POST" None)) ;;
       _ <- await p ;;
       ret tt)
      normalize).

(** [async getExpertProfile()] *)
Definition getExpertProfile : async value :=
  async_function (
    try_catch
      (p <- call (makeRequest "/expert/profile" (request "GET" None)) ;;
       return_promise p)
      normalize).

(** [async updateExpertProfile(request)] *)
Definition updateExpertProfile (req : value) : async value :=
  async_function (
    try_catch
      (p <- call (makeRequest "/expert/profile"
                    (request "PUT" (Some (JSON_stringify P req)))) ;;
       return_promise p)
      normalize).

(** [async getExpertAssignmentHistory()] *)
Definition getExpertAssignmentHistory : async value :=
  async_function (
    try_catch
      (p <- call (makeRequest "/expert/assignments/history"
                    (request "GET" None)) ;;
       return_promise p)
      normalize).

End Methods.

End ApiChatService.

(* ================================================================== *)
(** ** ApiAuthService *)
(* ================================================================== *)

Module ApiAuthService.

Record AuthServiceConfig : Type := { cfg_baseUrl : string }.

Record t : Type := { baseUrl : string }.

(** [constructor(config)] *)
Definition new (config : AuthServiceConfig) : t :=
  {| baseUrl := or_string (cfg_baseUrl config) "http://localhost:3000" |}.

Section Methods.

Variable P : platform.
Variable this : t.

(** [private buildUrl(endpoint)] *)
Definition buildUrl (endpoint : string) : string :=
  baseUrl this ++ (if startsWith endpoint "/" then endpoint else "/" ++ endpoint).

(** [private extractErrorMessage(statusText, payload)] *)
Definition extractErrorMessage (statusText : string) (payload : value) : string :=
  if negb (truthy payload) then or_string statusText "Request failed"
  else
    let e := get payload "error" in
    let es := get payload "errors" in
    if truthy e && (typeof e =? "string")%string then to_string e
    else
      match es with
      | VArr xs =>
          if negb (Z.of_nat (length xs) =? 0) then join "; " xs
          else or_string statusText "Request failed"
      | _ => or_string statusText "Request failed"
      end.

(** [private async makeRequest<T>(endpoint, options = {})]: as in the chat
    client, with [credentials: 'include'] under the caller's options. *)
Definition makeRequest (endpoint : string) (options : RequestInit) : async value :=
  async_function (
    let url := buildUrl endpoint in
    let headers0 :=
      new_Headers (spread [("Content-Type", "application/json")] (headers options)) in
    token <- TokenManager.getToken ;;
    let headers1 :=
      if truthy token && negb (headers_has headers0 "Authorization")
      then headers_set headers0 "Authorization" ("Bearer " ++ to_string token)
      else headers0 in
    resp <- try_catch
              (p <- fetch P url
                      {| fi_method := method options;
                         fi_body := body options;
                         fi_headers := headers1;
                         fi_credentials :=
                           match credentials options with
                           | Some c => Some c
                           | None => Some "include"
                           end |} ;;
               await p)
              (fun fetchError =>
                 console_error
                   ("[makeRequest] Network error while fetching " ++ url ++ ":")
                   fetchError ;;
                 m <- member fetchError "message" ;;
                 throw (new_Error
                          ("Network request failed: "
                             ++ to_string (or_else m fetchError)))) ;;
    let ct :=
      match headers_get (resp_headers resp) "content-type" with
      | Some s => or_string s ""
      | None => ""
      end in
    let isJson := includes ct "application/json" in
    payload <-
      (if isJson then
         try_catch
           (jsonData <- await (json resp) ;; ret jsonData)
           (fun jsonError =>
              console_warn
                ("[makeRequest] Failed to parse JSON from " ++ url ++ ":")
                jsonError ;;
              ret VNull)
       else
         try_catch
           (textData <- await (text resp) ;; ret (VStr textData))
           (fun textError =>
              console_warn
                ("[makeRequest] Failed to read text body from " ++ url ++ ":")
                textError ;;
              ret VNull)) ;;
    if negb (ok resp) then
      let message := extractErrorMessage (statusText resp) payload in
      let err := new_Error message in
      let err := set err "status" (VNum (status resp)) in
      let err := set err "body" payload in
      throw err
    else return_ payload).

Definition request (m : string) (b : option string) : RequestInit :=
  {| method := Some m; body := b; headers := None; credentials := None |}.

(** The [catch] clause of [login], [register] and [refreshToken]. *)
Definition normalize {A} (error : value) : js A :=
  let message := ApiErrorHandler.handle error in
  throw (new_Error message).

(** [async login(username, password)] *)
Definition login (username password : string) : async value :=
  async_function (
    try_catch
      (p <- call (makeRequest "/auth/login"
                    (request "POST"
                       (Some (JSON_stringify P
                                (VObj [("username", VStr username);
                                       ("password", VStr password)]))))) ;;
       res <- await p ;;
       tok <- member res "token" ;;
       TokenManager.setToken tok ;;
       user <- member res "user" ;;
       return_ user)
      normalize).

(** [async register(userData)] *)
Definition register (userData : value) : async value :=
  async_function (
    try_catch
      (p <- call (makeRequest "/auth/register"
                    (request "POST" (Some (JSON_stringify P userData)))) ;;
       res <- await p ;;
       tok <- member res "token" ;;
       TokenManager.setToken tok ;;
       user <- member res "user" ;;
       return_ user)
      normalize).

(** [async logout()] *)
Definition logout : async value :=
  async_function (
    try_catch_finally
      (p <- call (makeRequest "/auth/logout" (request "POST" None)) ;;
       _ <- await p ;;
       ret tt)
      (fun e =>
         let message := ApiErrorHandler.handle e in
         console_warn
           "[logout] Backend logout failed, proceeding with local logout:"
           (VStr message))
      TokenManager.clearToken).

(** [async refreshToken()] *)
Definition refreshToken : async value :=
  async_function (
    try_catch
      (p <- call (makeRequest "/auth/refresh" (request "POST" None)) ;;
       res <- await p ;;
       tok <- member res "token" ;;
       TokenManager.setToken tok ;;
       user <- member res "user" ;;
       return_ user)
      normalize).

(** [async getCurrentUser()] *)
Definition getCurrentUser : async value :=
  async_function (
    try_catch
      (p <- call (makeRequest "/auth/me" (request "GET" None)) ;;
       user <- await p ;;
       return_ user)
      (fun e =>
         if strict_eq_num (get_opt e "status") 401
            || strict_eq_num (get_opt e "status") 403
         then
           TokenManager.clearToken ;;
           return_ VNull
         else
           let message := ApiErrorHandler.handle e in
           throw (new_Error message))).

End Methods.

End ApiAuthService.

(* ================================================================== *)
(** ** Notions used to state the properties *)
(* ================================================================== *)

Module Pipeline.

(** The headers [makeRequest] sends, given the caller's options and the
    stored token. *)
Definition sent_headers (options : RequestInit) (tok : value) : Headers :=
  let headers0 :=
    new_Headers (spread [("Content-Type", "application/json")] (headers options)) in
  if truthy tok && negb (headers_has headers0 "Authorization")
  then headers_set headers0 "Authorization" ("Bearer " ++ to_string tok)
  else headers0.

(** The init object the chat client's pipeline passes to [fetch]. *)
Definition chat_init (options : RequestInit) (tok : value) : FetchInit :=
  {| fi_method := method options;
     fi_body := body options;
     fi_headers := sent_headers options tok;
     fi_credentials := credentials options |}.

(** The init object the auth client's pipeline passes to [fetch]. *)
Definition auth_init (options : RequestInit) (tok : value) : FetchInit :=
  {| fi_method := method options;
     fi_body := body options;
     fi_headers := sent_headers options tok;
     fi_credentials :=
       match credentials options with
       | Some c => Some c
       | None => Some "include"
       end |}.

(** The declared content type of a response, [''] when there is none. *)
Definition content_type (resp : Response) : string :=
  match headers_get (resp_headers resp) "content-type" with
  | Some s => or_string s ""
  | None => ""
  end.

Definition is_json (resp : Response) : bool :=
  includes (content_type resp) "application/json".

(** The body as the pipeline reads it: the parsed JSON or the raw text,
    [null] when reading fails. *)
Definition parsed_body (resp : Response) : value :=
  if is_json resp then
    match json resp with
    | Fulfilled v => v
    | Rejected _ => VNull
    end
  else
    match text resp with
    | Fulfilled s => VStr s
    | Rejected _ => VNull
    end.

Definition is_fetch (ev : event) : bool :=
  match ev with
  | Fetch _ _ => true
  | _ => false
  end.

Definition is_token_write (ev : event) : bool :=
  match ev with
  | SetToken _ | ClearToken => true
  | _ => false
  end.

(** The network calls and the writes to the token store within a trace. *)
Definition fetches (evs : list event) : list event := filter is_fetch evs.
Definition token_writes (evs : list event) : list event :=
  filter is_token_write evs.

(** The warning logged when the body of a response cannot be read. *)
Definition body_warnings (url : string) (resp : Response) : list event :=
  if is_json resp then
    match json resp with
    | Fulfilled _ => []
    | Rejected e =>
        [Console "warn" ("[makeRequest] Failed to parse JSON from " ++ url ++ ":") e]
    end
  else
    match text resp with
    | Fulfilled _ => []
    | Rejected e =>
        [Console "warn"
           ("[makeRequest] Failed to read text body from " ++ url ++ ":") e]
    end.

(** The error raised for a response outside the success range. *)
Definition http_error (message : string) (resp : Response) : value :=
  VError "Error" message
    [("status", VNum (status resp)); ("body", parsed_body resp)].

(** The error raised when [fetch] rejects with [e]. *)
Definition transport_error (e : value) : value :=
  if nullish e then TypeError_read e "message"
  else new_Error
         ("Network request failed: " ++ to_string (or_else (get e "message") e)).

Definition network_error_text (url : string) : string :=
  "[makeRequest] Network error while fetching " ++ url ++ ":".

(** An endpoint without its leading slash, if it has one. *)
Definition without_leading_slash (endpoint : string) : string :=
  match endpoint with
  | String c rest => if (c =? "/")%char then rest else endpoint
  | EmptyString => endpoint
  end.

Fixpoint ends_with_slash (s : string) : bool :=
  match s with
  | EmptyString => false
  | String c rest =>
      match rest with
      | EmptyString => (c =? "/")%char
      | String _ _ => ends_with_slash rest
      end
  end.

Fixpoint strip_trailing_slashes (s : string) : string :=
  match s with
  | EmptyString => EmptyString
  | String c rest =>
      let r := strip_trailing_slashes rest in
      if ((r =? "")%string && (c =? "/")%char)%bool then EmptyString
      else String c r
  end.

Fixpoint strip_leading_slashes (s : string) : string :=
  match s with
  | EmptyString => EmptyString
  | String c rest => if (c =? "/")%char then strip_leading_slashes rest else s
  end.

(** A base URL and an endpoint "concatenated with exactly one separating
    slash", in the words of the specification: whatever slashes end the
    base URL or start the endpoint, one slash stands between the two. *)
Definition joined_by_one_slash (base endpoint : string) : string :=
  strip_trailing_slashes base ++ "/" ++ strip_leading_slashes endpoint.

(** The message of an application-level error in the words of the
    specification: "message is derived from the parsed body ([error] string
    field, else joined [errors] array, else the status's reason phrase, else
    a generic fallback)".  A field counts as present when it has the stated
    type and is not empty, just as the reason phrase does. *)
Definition error_field (payload : value) : option string :=
  match get payload "error" with
  | VStr s => if (s =? "")%string then None else Some s
  | _ => None
  end.

Definition errors_field (payload : value) : option (list value) :=
  match get payload "errors" with
  | VArr (x :: xs) => Some (x :: xs)
  | _ => None
  end.

Definition spec_error_message (reason : string) (payload : value) : string :=
  match error_field payload with
  | Some e => e
  | None =>
      match errors_field payload with
      | Some es => join "; " es
      | None => if (reason =? "")%string then "Request failed" else reason
      end
  end.

End Pipeline.
Import Pipeline.

(* ================================================================== *)
(** ** Test doubles *)
(* ================================================================== *)

Module Mock.

(** A platform whose network gives the same answer to every request. *)
Definition platform_with (answer : promise Response) : platform :=
  {| network := fun _ _ => answer;
     JSON_stringify := fun _ => "{}";
     encodeURIComponent := fun s => s |}.

(** A response carrying a JSON body. *)
Definition json_response (code : Z) (reason : string) (payload : value)
  : Response :=
  {| status := code;
     statusText := reason;
     resp_headers := new_Headers [("Content-Type", "application/json")];
     json := Fulfilled payload;
     text := Rejected (VError "TypeError" "body stream already read" []) |}.

(** A response carrying plain text. *)
Definition text_response (code : Z) (reason : string) (payload : string)
  : Response :=
  {| status := code;
     statusText := reason;
     resp_headers := new_Headers [("Content-Type", "text/plain")];
     json := Rejected (VError "SyntaxError" "Unexpected token" []);
     text := Fulfilled payload |}.

Definition responding (resp : Response) : platform :=
  platform_with (Fulfilled resp).

(** The failure [fetch] reports when the network is unreachable. *)
Definition failed_to_fetch : value := VError "TypeError" "Failed to fetch" [].

Definition unreachable : platform := platform_with (Rejected failed_to_fetch).

Definition chat : ApiChatService.t :=
  ApiChatService.new
    {| ApiChatService.cfg_baseUrl := "https://api.example.com";
       ApiChatService.cfg_timeout := 5000;
       ApiChatService.cfg_retryAttempts := 3 |}.

Definition auth : ApiAuthService.t :=
  ApiAuthService.new {| ApiAuthService.cfg_baseUrl := "https://api.example.com" |}.

(** No token stored, nothing done yet. *)
Definition fresh : world := {| token := VNull; trace := [] |}.

(** A session with a stored token. *)
Definition signed_in : world := {| token := VStr "t0k3n"; trace := [] |}.

(** A session whose stored token has a space after it. *)
Definition padded_token : world := {| token := VStr "t0k3n "; trace := [] |}.

(** The validation failure of the specification's example. *)
Definition two_errors : value := VObj [("errors", VArr [VStr "A"; VStr "B"])].

Definition unprocessable : Response :=
  json_response 422 "Unprocessable Entity" two_errors.

Definition unauthorized : Response := json_response 401 "Unauthorized" (VObj []).

Definition forbidden : Response := json_response 403 "Forbidden" (VObj []).

Definition unavailable : Response :=
  text_response 503 "Service Unavailable" "try later".

Definition one_conversation : value := VArr [VObj [("id", VStr "1")]].

Definition conversations : Response := json_response 200 "OK" one_conversation.

(** An application-level error as the pipeline raises it. *)
Definition teapot : value :=
  VError "Error" "I'm a teapot" [("status", VNum 418); ("body", VNull)].

(** A response that declares JSON but whose body does not parse. *)
Definition syntax_error : value :=
  VError "SyntaxError" "Unexpected end of JSON input" [].

Definition unparsable (code : Z) (reason : string) : Response :=
  {| status := code;
     statusText := reason;
     resp_headers := new_Headers [("Content-Type", "application/json")];
     json := Rejected syntax_error;
     text := Rejected (VError "TypeError" "body stream already read" []) |}.



(** What the backend answers to a successful login. *)
Definition session : value :=
  VObj [("user", VObj [("id", VNum 7)]); ("token", VStr "abc")].

Definition logged_in : Response := json_response 200 "OK" session.


(** Options with a caller-supplied authorization header. *)
Definition own_authorization : RequestInit :=
  {| method := Some "GET";
     body := None;
     headers := Some (HeadersRecord [("authorization", "Basic dXNlcg==")]);
     credentials := None |}.

(** Options whose headers are a [Headers] object. *)
Definition headers_object : RequestInit :=
  {| method := Some "GET";
     body := None;
     headers := Some (HeadersInstance [("authorization", "Basic dXNlcg==")]);
     credentials := None |}.

End Mock.

(* ================================================================== *)
(** ** The two service interfaces *)
(* ================================================================== *)

Module Operations.

(** A call of one of the methods [ChatService] declares. *)
Inductive chat_call : Type :=
| GetConversations
| GetConversation (id : string)
| CreateConversation (req : value)
| UpdateConversation (id : string) (req : value)
| DeleteConversation (id : string)
| GetMessages (conversationId : string)
| SendMessage (req : value)
| MarkMessageAsRead (messageId : string)
| GetExpertQueue
| ClaimConversation (conversationId : string)
| UnclaimConversation (conversationId : string)
| GetExpertProfile
| UpdateExpertProfile (req : value)
| GetExpertAssignmentHistory.

Definition run_chat (P : platform) (this : ApiChatService.t) (c : chat_call)
  : async value :=
  match c with
  | GetConversations => ApiChatService.getConversations P this
  | GetConversation id => ApiChatService.getConversation P this id
  | CreateConversation req => ApiChatService.createConversation P this req
  | UpdateConversation id req => ApiChatService.updateConversation id req
  | DeleteConversation id => ApiChatService.deleteConversation id
  | GetMessages conversationId => ApiChatService.getMessages P this conversationId
  | SendMessage req => ApiChatService.sendMessage P this req
  | MarkMessageAsRead messageId => ApiChatService.markMessageAsRead messageId
  | GetExpertQueue => ApiChatService.getExpertQueue P this
  | ClaimConversation conversationId =>
      ApiChatService.claimConversation P this conversationId
  | UnclaimConversation conversationId =>
      ApiChatService.unclaimConversation P this conversationId
  | GetExpertProfile => ApiChatService.getExpertProfile P this
  | UpdateExpertProfile req => ApiChatService.updateExpertProfile P this req
  | GetExpertAssignmentHistory => ApiChatService.getExpertAssignmentHistory P this
  end.

(** The methods marked "SKIP, not currently used by application". *)
Definition unimplemented (c : chat_call) : option string :=
  match c with
  | UpdateConversation _ _ => Some "updateConversation method not implemented"
  | DeleteConversation _ => Some "deleteConversation method not implemented"
  | MarkMessageAsRead _ => Some "markMessageAsRead method not implemented"
  | _ => None
  end.


(** A call of one of the methods [AuthService] declares. *)
Inductive auth_call : Type :=
| Login (username password : string)
| Register (userData : value)
| Logout
| RefreshToken
| GetCurrentUser.

Definition run_auth (P : platform) (this : ApiAuthService.t) (c : auth_call)
  : async value :=
  match c with
  | Login username password => ApiAuthService.login P this username password
  | Register userData => ApiAuthService.register P this userData
  | Logout => ApiAuthService.logout P this
  | RefreshToken => ApiAuthService.refreshToken P this
  | GetCurrentUser => ApiAuthService.getCurrentUser P this
  end.

(** The three methods that hand the received token to the store. *)
Definition signs_in (c : auth_call) : bool :=
  match c with
  | Login _ _ | Register _ | RefreshToken => true
  | _ => false
  end.

End Operations.
Import Operations.

(* ================================================================== *)
(** ** The request pipeline, step by step *)
(* ================================================================== *)

Ltac run_js :=
  unfold try_catch_finally;
  unfold async_function, bind, try_catch, call, fetch,
    await, ret, throw, return_, return_promise, member, console_error,
    console_warn, TokenManager.getToken, TokenManager.setToken,
    TokenManager.clearToken, emit;
  cbv beta iota zeta.

Lemma chat_makeRequest_run (P : platform) (this : ApiChatService.t)
    (endpoint : string) (options : RequestInit) (w : world) :
  ApiChatService.makeRequest P this endpoint options w =
  let url := ApiChatService.buildUrl this endpoint in
  let init := chat_init options (token w) in
  match network P url init with
  | Rejected e =>
      (Rejected (transport_error e),
       {| token := token w;
          trace := (trace w
                      ++ [Fetch url init; Console "error" (network_error_text url) e])%list |})
  | Fulfilled resp =>
      (if ok resp then Fulfilled (parsed_body resp)
       else Rejected
              (http_error
                 (ApiChatService.extractErrorMessage (statusText resp) (parsed_body resp))
                 resp),
       {| token := token w;
          trace := (trace w ++ Fetch url init :: body_warnings url resp)%list |})
  end.
Proof.
  unfold ApiChatService.makeRequest. run_js.
  unfold chat_init, sent_headers, network_error_text. cbv zeta.
  set (init := Build_FetchInit _ _ _ _).
  destruct (network P (ApiChatService.buildUrl this endpoint) init) as [resp|e].
  - unfold parsed_body, body_warnings, http_error, parsed_body, is_json, content_type.
    destruct (includes _ _).
    + destruct (json resp); destruct (ok resp); simpl;
        rewrite <- ?app_assoc; reflexivity.
    + destruct (text resp); destruct (ok resp); simpl;
        rewrite <- ?app_assoc; reflexivity.
  - unfold transport_error. destruct (nullish e); simpl;
      rewrite <- ?app_assoc; reflexivity.
Qed.

Lemma auth_makeRequest_run (P : platform) (this : ApiAuthService.t)
    (endpoint : string) (options : RequestInit) (w : world) :
  ApiAuthService.makeRequest P this endpoint options w =
  let url := ApiAuthService.buildUrl this endpoint in
  let init := auth_init options (token w) in
  match network P url init with
  | Rejected e =>
      (Rejected (transport_error e),
       {| token := token w;
          trace := (trace w
                      ++ [Fetch url init; Console "error" (network_error_text url) e])%list |})
  | Fulfilled resp =>
      (if ok resp then Fulfilled (parsed_body resp)
       else Rejected
              (http_error
                 (ApiAuthService.extractErrorMessage (statusText resp) (parsed_body resp))
                 resp),
       {| token := token w;
          trace := (trace w ++ Fetch url init :: body_warnings url resp)%list |})
  end.
Proof.
  unfold ApiAuthService.makeRequest. run_js.
  unfold auth_init, sent_headers, network_error_text. cbv zeta.
  set (init := Build_FetchInit _ _ _ _).
  destruct (network P (ApiAuthService.buildUrl this endpoint) init) as [resp|e].
  - unfold parsed_body, body_warnings, http_error, parsed_body, is_json, content_type.
    destruct (includes _ _).
    + destruct (json resp); destruct (ok resp); simpl;
        rewrite <- ?app_assoc; reflexivity.
    + destruct (text resp); destruct (ok resp); simpl;
        rewrite <- ?app_assoc; reflexivity.
  - unfold transport_error. destruct (nullish e); simpl;
      rewrite <- ?app_assoc; reflexivity.
Qed.

Lemma body_warnings_console (url : string) (resp : Response) :
  fetches (body_warnings url resp) = [] /\ token_writes (body_warnings url resp) = [].
Proof.
  unfold body_warnings.
  destruct (is_json resp); [destruct (json resp) | destruct (text resp)];
    split; reflexivity.
Qed.

(** The pipeline leaves the token store alone and calls the network once. *)
Lemma auth_makeRequest_frame (P : platform) (this : ApiAuthService.t)
    (endpoint : string) (options : RequestInit) (w : world) :
  let w' := snd (ApiAuthService.makeRequest P this endpoint options w) in
  token w' = token w
  /\ token_writes (trace w') = token_writes (trace w)
  /\ fetches (trace w')
     = (fetches (trace w)
          ++ [Fetch (ApiAuthService.buildUrl this endpoint)
                (auth_init options (token w))])%list.
Proof.
  rewrite auth_makeRequest_run. cbv zeta.
  destruct (network P _ _) as [resp|e]; simpl; unfold token_writes, fetches;
    rewrite !filter_app; simpl.
  - destruct (body_warnings_console (ApiAuthService.buildUrl this endpoint) resp)
      as [Hf Ht].
    unfold token_writes, fetches in Hf, Ht. rewrite Hf, Ht, app_nil_r. auto.
  - rewrite app_nil_r. auto.
Qed.

Lemma chat_makeRequest_frame (P : platform) (this : ApiChatService.t)
    (endpoint : string) (options : RequestInit) (w : world) :
  let w' := snd (ApiChatService.makeRequest P this endpoint options w) in
  token w' = token w
  /\ token_writes (trace w') = token_writes (trace w)
  /\ fetches (trace w')
     = (fetches (trace w)
          ++ [Fetch (ApiChatService.buildUrl this endpoint)
                (chat_init options (token w))])%list.
Proof.
  rewrite chat_makeRequest_run. cbv zeta.
  destruct (network P _ _) as [resp|e]; simpl; unfold token_writes, fetches;
    rewrite !filter_app; simpl.
  - destruct (body_warnings_console (ApiChatService.buildUrl this endpoint) resp)
      as [Hf Ht].
    unfold token_writes, fetches in Hf, Ht. rewrite Hf, Ht, app_nil_r. auto.
  - rewrite app_nil_r. auto.
Qed.

(** The message extraction of either client follows the priority chain. *)
Lemma chat_extractErrorMessage_spec (reason : string) (payload : value) :
  ApiChatService.extractErrorMessage reason payload = spec_error_message reason payload.
Proof.
  unfold ApiChatService.extractErrorMessage, spec_error_message, error_field,
    errors_field, or_string.
  destruct (truthy payload) eqn:Ht; simpl.
  - destruct (get payload "error") as [| |b|n|s|xs|props|nm msg props]; simpl;
      rewrite ?andb_false_r, ?andb_true_r;
      try (destruct (s =? "")%string; simpl; [|reflexivity]);
      destruct (get payload "errors") as [| | | | |[|y ys]| |]; reflexivity.
  - assert (Hget : forall k, get payload k = VUndefined).
    { destruct payload; try discriminate Ht; reflexivity. }
    rewrite !Hget. reflexivity.
Qed.

Lemma auth_extractErrorMessage_spec (reason : string) (payload : value) :
  ApiAuthService.extractErrorMessage reason payload = spec_error_message reason payload.
Proof.
  apply chat_extractErrorMessage_spec.
Qed.

Lemma ok_iff (resp : Response) :
  ok resp = true <-> 200 <= status resp <= 299.
Proof.
  unfold ok. rewrite andb_true_iff, !Z.leb_le. tauto.
Qed.

Lemma not_ok (resp : Response) :
  status resp < 200 \/ 299 < status resp -> ok resp = false.
Proof.
  intros H. destruct (ok resp) eqn:E; [|reflexivity].
  apply ok_iff in E. lia.
Qed.

(* ================================================================== *)
(** ** The error normalizer *)
(* ================================================================== *)

Lemma handle_object (error : value) (n : Z) :
  get error "status" = VNum n ->
  ApiErrorHandler.handle error
  = ApiErrorHandler.switch_status (VNum n) ApiErrorHandler.unexpected.
Proof.
  intros H. unfold ApiErrorHandler.handle.
  destruct error; try discriminate H; simpl in *; rewrite H; reflexivity.
Qed.

(** C3: for every input object whose [status] is 400, 401, 403, 404, 422 or
    500, [handle] returns the fixed message of that code, whatever the
    other fields of the input (its [message], its [body]) are. *)
Theorem handle_recognized_status (error : value) (n : Z) :
  get error "status" = VNum n ->
  (n = 400 -> ApiErrorHandler.handle error
              = "Invalid request parameters. Please check your input.")
  /\ (n = 401 -> ApiErrorHandler.handle error
                 = "Authentication required. Please log in again.")
  /\ (n = 403 -> ApiErrorHandler.handle error
                 = "You do not have permission to perform this action.")
  /\ (n = 404 -> ApiErrorHandler.handle error
                 = "The requested resource could not be found.")
  /\ (n = 422 -> ApiErrorHandler.handle error
                 = "Validation failed. Please correct the highlighted fields.")
  /\ (n = 500 -> ApiErrorHandler.handle error
                 = "A server error occurred. Please try again later.").
Proof.
  intros H. rewrite (handle_object error n H).
  repeat split; intros ->; reflexivity.
Qed.

Lemma handle_recognized_status_witness :
  ApiErrorHandler.handle
    (VError "Error" "Unauthorized"
       [("status", VNum 401); ("body", VObj [("error", VStr "Unauthorized")])])
  = "Authentication required. Please log in again.".
Proof.
  apply (handle_recognized_status
           (VError "Error" "Unauthorized"
              [("status", VNum 401); ("body", VObj [("error", VStr "Unauthorized")])])
           401).
  - reflexivity.
  - reflexivity.
Defined.

(** C4, as stated, fails: an error object with the unrecognized status 418
    and the message "I'm a teapot" is mapped to the generic fallback, not
    to its own string. *)
Lemma handle_unrecognized_status_counterexample :
  get Mock.teapot "status" = VNum 418
  /\ get Mock.teapot "message" = VStr "I'm a teapot"
  /\ ApiErrorHandler.handle Mock.teapot
     = "An unexpected error occurred. Please try again later."
  /\ ApiErrorHandler.handle Mock.teapot <> "I'm a teapot".
Proof.
  repeat split; try reflexivity. discriminate.
Qed.

(** C4, amended: a string input is returned as it is; an object input whose
    [status] is none of the six recognized codes (an unrecognized status, or
    no status at all) gives the generic fallback, whatever its message. *)
Theorem handle_string_or_fallback :
  (forall s : string, ApiErrorHandler.handle (VStr s) = s)
  /\ (forall error : value,
        truthy error = true ->
        typeof error = "object" ->
        (forall n, get error "status" = VNum n ->
                   ~ In n [400; 401; 403; 404; 422; 500]) ->
        ApiErrorHandler.handle error
        = "An unexpected error occurred. Please try again later.").
Proof.
  split.
  - intros s. unfold ApiErrorHandler.handle. simpl.
    destruct (negb (s =? "")%string); reflexivity.
  - intros error Ht Hty Hst. unfold ApiErrorHandler.handle.
    rewrite Ht, Hty. simpl.
    destruct (get error "status") as [| |b|n|s|xs|props|nm msg props] eqn:E;
      try reflexivity.
    specialize (Hst n eq_refl). simpl in Hst.
    unfold ApiErrorHandler.switch_status.
    repeat match goal with
           | |- context [?a =? ?b] =>
               destruct (Z.eqb_spec a b); [exfalso; apply Hst; lia|]
           end.
    reflexivity.
Qed.

Lemma handle_string_or_fallback_witness :
  ApiErrorHandler.handle (VStr "Session expired") = "Session expired"
  /\ ApiErrorHandler.handle Mock.teapot
     = "An unexpected error occurred. Please try again later.".
Proof.
  split.
  - apply (proj1 handle_string_or_fallback).
  - apply (proj2 handle_string_or_fallback Mock.teapot).
    + reflexivity.
    + reflexivity.
    + intros n H. injection H as <-. simpl. lia.
Defined.

(* ================================================================== *)
(** ** URL building *)
(* ================================================================== *)

Lemma starts_with_slash (endpoint : string) :
  (if startsWith endpoint "/" then endpoint else "/" ++ endpoint)
  = "/" ++ without_leading_slash endpoint.
Proof.
  destruct endpoint as [|c rest]; [reflexivity|].
  unfold startsWith, without_leading_slash.
  change (prefix "/" (String c rest))
    with (if ascii_dec "/" c then prefix "" rest else false).
  destruct (ascii_dec "/" c) as [<-|Hc].
  - destruct rest; reflexivity.
  - destruct (Ascii.eqb_spec c "/"); [congruence | reflexivity].
Qed.

(** Either client builds the base URL, one slash, and the endpoint without
    the slash it may start with. *)
Lemma buildUrl_inserts_slash (base endpoint : string) :
  ApiChatService.buildUrl {| ApiChatService.baseUrl := base |} endpoint
  = base ++ "/" ++ without_leading_slash endpoint
  /\ ApiAuthService.buildUrl {| ApiAuthService.baseUrl := base |} endpoint
     = base ++ "/" ++ without_leading_slash endpoint.
Proof.
  unfold ApiChatService.buildUrl, ApiAuthService.buildUrl. simpl.
  rewrite starts_with_slash. auto.
Qed.

Lemma strip_trailing_slashes_open (s : string) :
  ends_with_slash s = false -> strip_trailing_slashes s = s.
Proof.
  induction s as [|c rest IH]; [reflexivity|].
  cbn [ends_with_slash strip_trailing_slashes].
  destruct rest as [|c' rest'].
  - intros ->. reflexivity.
  - intros H. rewrite (IH H). reflexivity.
Qed.

Lemma strip_leading_slashes_once (endpoint : string) :
  startsWith endpoint "//" = false ->
  strip_leading_slashes endpoint = without_leading_slash endpoint.
Proof.
  unfold startsWith. destruct endpoint as [|c rest]; [reflexivity|].
  cbn [strip_leading_slashes without_leading_slash].
  change (prefix "//" (String c rest))
    with (if ascii_dec "/" c then prefix "/" rest else false).
  destruct (Ascii.eqb_spec c "/") as [->|Hc]; [|reflexivity].
  destruct (ascii_dec "/" "/") as [_|Hne]; [|congruence].
  destruct rest as [|c' rest']; [reflexivity|].
  change (prefix "/" (String c' rest'))
    with (if ascii_dec "/" c' then prefix "" rest' else false).
  cbn [strip_leading_slashes].
  destruct (Ascii.eqb_spec c' "/") as [->|Hc']; [|reflexivity].
  destruct (ascii_dec "/" "/") as [_|Hne]; [|congruence].
  destruct rest'; discriminate.
Qed.

(** C7, as stated, fails: with a base URL that ends in a slash, or an
    endpoint that starts with two, the URL built has two slashes where the
    base URL and the endpoint meet, not one. *)
Lemma buildUrl_two_slashes_counterexample :
  ApiChatService.buildUrl
    {| ApiChatService.baseUrl := "https://api.example.com/" |} "/conversations"
  = "https://api.example.com//conversations"
  /\ ApiChatService.buildUrl
       {| ApiChatService.baseUrl := "https://api.example.com/" |} "/conversations"
     <> joined_by_one_slash "https://api.example.com/" "/conversations"
  /\ ApiAuthService.buildUrl
       {| ApiAuthService.baseUrl := "https://api.example.com" |} "//conversations"
     = "https://api.example.com//conversations"
  /\ ApiAuthService.buildUrl
       {| ApiAuthService.baseUrl := "https://api.example.com" |} "//conversations"
     <> joined_by_one_slash "https://api.example.com" "//conversations".
Proof.
  repeat split; try reflexivity;
    intros H; apply (f_equal String.length) in H; vm_compute in H; discriminate H.
Qed.

(** C7, amended: for every base URL both clients build the same URL for
    ["conversations"] and ["/conversations"]; and for every base URL that
    does not end with a slash and every endpoint that does not start with
    two slashes, they concatenate base URL and endpoint with exactly one
    separating slash, whether or not the endpoint starts with one. *)
Theorem buildUrl_single_slash (base endpoint : string) :
  let chat := {| ApiChatService.baseUrl := base |} in
  let auth := {| ApiAuthService.baseUrl := base |} in
  (ApiChatService.buildUrl chat "conversations"
   = ApiChatService.buildUrl chat "/conversations"
   /\ ApiAuthService.buildUrl auth "conversations"
      = ApiAuthService.buildUrl auth "/conversations")
  /\ (ends_with_slash base = false ->
      startsWith endpoint "//" = false ->
      ApiChatService.buildUrl chat endpoint = joined_by_one_slash base endpoint
      /\ ApiAuthService.buildUrl auth endpoint = joined_by_one_slash base endpoint).
Proof.
  cbv zeta. split.
  - split; reflexivity.
  - intros Hbase Hendpoint.
    destruct (buildUrl_inserts_slash base endpoint) as [-> ->].
    unfold joined_by_one_slash.
    rewrite (strip_trailing_slashes_open base Hbase),
      (strip_leading_slashes_once endpoint Hendpoint).
    auto.
Qed.

Lemma buildUrl_single_slash_witness :
  (ApiChatService.buildUrl Mock.chat "conversations"
   = ApiChatService.buildUrl Mock.chat "/conversations"
   /\ ApiAuthService.buildUrl Mock.auth "conversations"
      = ApiAuthService.buildUrl Mock.auth "/conversations")
  /\ ApiChatService.buildUrl Mock.chat "/conversations"
     = joined_by_one_slash "https://api.example.com" "/conversations"
  /\ ApiAuthService.buildUrl Mock.auth "auth/me"
     = joined_by_one_slash "https://api.example.com" "auth/me".
Proof.
  split; [exact (proj1 (buildUrl_single_slash "https://api.example.com" "")) |].
  split.
  - exact (proj1 (proj2 (buildUrl_single_slash "https://api.example.com"
                           "/conversations") eq_refl eq_refl)).
  - exact (proj2 (proj2 (buildUrl_single_slash "https://api.example.com"
                           "auth/me") eq_refl eq_refl)).
Defined.

(* ================================================================== *)
(** ** The request pipeline *)
(* ================================================================== *)



(** The same holds of the auth client's copy of the pipeline. *)
Lemma auth_makeRequest_error_status (P : platform) (this : ApiAuthService.t)
    (endpoint : string) (options : RequestInit) (w : world) (resp : Response) :
  network P (ApiAuthService.buildUrl this endpoint) (auth_init options (token w))
  = Fulfilled resp ->
  status resp < 200 \/ 299 < status resp ->
  exists w',
    ApiAuthService.makeRequest P this endpoint options w
    = (Rejected (http_error
                   (spec_error_message (statusText resp) (parsed_body resp)) resp),
       w').
Proof.
  intros Hnet Hst.
  rewrite auth_makeRequest_run. cbv zeta. rewrite Hnet, (not_ok resp Hst).
  rewrite auth_extractErrorMessage_spec. eexists. reflexivity.
Qed.





(* ================================================================== *)
(** ** The chat client's operations *)
(* ================================================================== *)

(** A method that returns the pipeline's promise without awaiting it settles
    as the pipeline does: its [catch] clause is never entered. *)
Ltac adopt :=
  run_js;
  match goal with
  | |- context [ApiChatService.makeRequest ?P ?this ?endpoint ?options ?w] =>
      destruct (ApiChatService.makeRequest P this endpoint options w)
  end;
  reflexivity.

Lemma getConversations_adopts_pipeline (P : platform) (this : ApiChatService.t)
    (w : world) :
  ApiChatService.getConversations P this w
  = ApiChatService.makeRequest P this "/conversations"
      (ApiChatService.request "GET" None) w.
Proof. unfold ApiChatService.getConversations. adopt. Qed.

Lemma getConversation_adopts_pipeline (P : platform) (this : ApiChatService.t)
    (id : string) (w : world) :
  ApiChatService.getConversation P this id w
  = ApiChatService.makeRequest P this
      ("/conversations/" ++ encodeURIComponent P id)
      (ApiChatService.request "GET" None) w.
Proof. unfold ApiChatService.getConversation. adopt. Qed.

Lemma createConversation_adopts_pipeline (P : platform) (this : ApiChatService.t)
    (req : value) (w : world) :
  ApiChatService.createConversation P this req w
  = ApiChatService.makeRequest P this "/conversations"
      (ApiChatService.request "POST" (Some (JSON_stringify P req))) w.
Proof. unfold ApiChatService.createConversation. adopt. Qed.

Lemma getMessages_adopts_pipeline (P : platform) (this : ApiChatService.t)
    (conversationId : string) (w : world) :
  ApiChatService.getMessages P this conversationId w
  = ApiChatService.makeRequest P this
      ("/conversations/" ++ encodeURIComponent P conversationId ++ "/messages")
      (ApiChatService.request "GET" None) w.
Proof. unfold ApiChatService.getMessages. adopt. Qed.

Lemma sendMessage_adopts_pipeline (P : platform) (this : ApiChatService.t)
    (req : value) (w : world) :
  ApiChatService.sendMessage P this req w
  = ApiChatService.makeRequest P this "/messages"
      (ApiChatService.request "POST" (Some (JSON_stringify P req))) w.
Proof. unfold ApiChatService.sendMessage. adopt. Qed.

Lemma getExpertQueue_adopts_pipeline (P : platform) (this : ApiChatService.t)
    (w : world) :
  ApiChatService.getExpertQueue P this w
  = ApiChatService.makeRequest P this "/expert/queue"
      (ApiChatService.request "GET" None) w.
Proof. unfold ApiChatService.getExpertQueue. adopt. Qed.

Lemma getExpertProfile_adopts_pipeline (P : platform) (this : ApiChatService.t)
    (w : world) :
  ApiChatService.getExpertProfile P this w
  = ApiChatService.makeRequest P this "/expert/profile"
      (ApiChatService.request "GET" None) w.
Proof. unfold ApiChatService.getExpertProfile. adopt. Qed.

Lemma updateExpertProfile_adopts_pipeline (P : platform) (this : ApiChatService.t)
    (req : value) (w : world) :
  ApiChatService.updateExpertProfile P this req w
  = ApiChatService.makeRequest P this "/expert/profile"
      (ApiChatService.request "PUT" (Some (JSON_stringify P req))) w.
Proof. unfold ApiChatService.updateExpertProfile. adopt. Qed.

Lemma getExpertAssignmentHistory_adopts_pipeline (P : platform)
    (this : ApiChatService.t) (w : world) :
  ApiChatService.getExpertAssignmentHistory P this w
  = ApiChatService.makeRequest P this "/expert/assignments/history"
      (ApiChatService.request "GET" None) w.
Proof. unfold ApiChatService.getExpertAssignmentHistory. adopt. Qed.

(** A method that awaits the pipeline's promise normalizes its rejection. *)
Lemma claimConversation_normalizes (P : platform) (this : ApiChatService.t)
    (conversationId : string) (w w1 : world) (e : value) :
  ApiChatService.makeRequest P this
    ("/expert/conversations/" ++ encodeURIComponent P conversationId ++ "/claim")
    (ApiChatService.request "POST" None) w = (Rejected e, w1) ->
  ApiChatService.claimConversation P this conversationId w
  = (Rejected (new_Error (ApiErrorHandler.handle e)), w1).
Proof.
  intros H. unfold ApiChatService.claimConversation, ApiChatService.normalize.
  run_js. rewrite H. reflexivity.
Qed.

Lemma unclaimConversation_normalizes (P : platform) (this : ApiChatService.t)
    (conversationId : string) (w w1 : world) (e : value) :
  ApiChatService.makeRequest P this
    ("/expert/conversations/" ++ encodeURIComponent P conversationId ++ "/unclaim")
    (ApiChatService.request "POST" None) w = (Rejected e, w1) ->
  ApiChatService.unclaimConversation P this conversationId w
  = (Rejected (new_Error (ApiErrorHandler.handle e)), w1).
Proof.
  intros H. unfold ApiChatService.unclaimConversation, ApiChatService.normalize.
  run_js. rewrite H. reflexivity.
Qed.

(** C1 at a failing input: against a backend answering 401 with the body
    [{}], the pipeline rejects with the error "Unauthorized" carrying status
    401 and the body, and [getConversations] rejects with that very error,
    not with the normalized message-only one. *)
Theorem getConversations_rejection_not_normalized :
  let P := Mock.responding Mock.unauthorized in
  let raised := http_error "Unauthorized" Mock.unauthorized in
  exists w',
    ApiChatService.makeRequest P Mock.chat "/conversations"
      (ApiChatService.request "GET" None) Mock.fresh = (Rejected raised, w')
    /\ ApiChatService.getConversations P Mock.chat Mock.fresh = (Rejected raised, w')
    /\ get raised "status" = VNum 401
    /\ get raised "body" = VObj []
    /\ ApiErrorHandler.handle raised = "Authentication required. Please log in again."
    /\ raised <> new_Error (ApiErrorHandler.handle raised).
Proof.
  cbv zeta. eexists. rewrite getConversations_adopts_pipeline.
  repeat split; try reflexivity. discriminate.
Qed.

(* ================================================================== *)
(** ** The auth client's operations *)
(* ================================================================== *)

(** C5: [logout] always resolves, and always ends by clearing the token
    through the token store, whether the backend request succeeded or
    failed; nothing else writes the token. *)
Theorem logout_always_clears_token (P : platform) (this : ApiAuthService.t)
    (w : world) :
  exists evs,
    ApiAuthService.logout P this w
    = (Fulfilled VUndefined,
       {| token := VNull; trace := (trace w ++ evs ++ [ClearToken])%list |})
    /\ token_writes evs = [].
Proof.
  unfold ApiAuthService.logout. run_js.
  rewrite auth_makeRequest_run. cbv zeta.
  set (url := ApiAuthService.buildUrl this "/auth/logout").
  set (init := auth_init _ _).
  destruct (network P url init) as [resp|e].
  - destruct (body_warnings_console url resp) as [_ Hw].
    unfold token_writes in *.
    destruct (ok resp).
    + exists (Fetch url init :: body_warnings url resp).
      split; [cbn [token trace]; rewrite <- app_assoc; reflexivity|].
      cbn [filter is_token_write]. exact Hw.
    + exists ((Fetch url init :: body_warnings url resp)
                ++ [Console "warn"
                      "[logout] Backend logout failed, proceeding with local logout:"
                      (VStr (ApiErrorHandler.handle
                               (http_error
                                  (ApiAuthService.extractErrorMessage
                                     (statusText resp) (parsed_body resp))
                                  resp)))])%list.
      split; [cbn [token trace]; rewrite <- !app_assoc; reflexivity|].
      rewrite filter_app. cbn [filter is_token_write]. rewrite Hw. reflexivity.
  - exists [Fetch url init; Console "error" (network_error_text url) e;
            Console "warn"
              "[logout] Backend logout failed, proceeding with local logout:"
              (VStr (ApiErrorHandler.handle (transport_error e)))].
    split; [cbn [token trace]; rewrite <- !app_assoc; reflexivity | reflexivity].
Qed.

(** C6: when the pipeline rejects with an error whose status is 401 or 403,
    [getCurrentUser] clears the token and resolves with [null]; when it
    rejects with any other error, [getCurrentUser] rejects with the
    normalized message-only error and the token store is as it was. *)
Theorem getCurrentUser_on_failure (P : platform) (this : ApiAuthService.t)
    (w w1 : world) (e : value) :
  ApiAuthService.makeRequest P this "/auth/me" (ApiAuthService.request "GET" None) w
  = (Rejected e, w1) ->
  (get_opt e "status" = VNum 401 \/ get_opt e "status" = VNum 403 ->
   ApiAuthService.getCurrentUser P this w
   = (Fulfilled VNull,
      {| token := VNull; trace := (trace w1 ++ [ClearToken])%list |}))
  /\ (get_opt e "status" <> VNum 401 -> get_opt e "status" <> VNum 403 ->
      ApiAuthService.getCurrentUser P this w
      = (Rejected (new_Error (ApiErrorHandler.handle e)), w1)
      /\ token w1 = token w
      /\ token_writes (trace w1) = token_writes (trace w)).
Proof.
  intros H.
  pose proof (auth_makeRequest_frame P this "/auth/me"
                (ApiAuthService.request "GET" None) w) as Hframe.
  cbv zeta in Hframe. rewrite H in Hframe. simpl in Hframe.
  destruct Hframe as (Htok & Hwrites & _).
  unfold ApiAuthService.getCurrentUser. run_js. rewrite H. split.
  - intros [Hs | Hs]; rewrite Hs; reflexivity.
  - intros H401 H403.
    assert (Hno : strict_eq_num (get_opt e "status") 401
                  || strict_eq_num (get_opt e "status") 403 = false).
    { destruct (get_opt e "status") as [| |b|n|s|xs|props|nm msg props];
        try reflexivity.
      simpl. destruct (Z.eqb_spec n 401); [subst; congruence|].
      destruct (Z.eqb_spec n 403); [subst; congruence | reflexivity]. }
    rewrite Hno. auto.
Qed.

Lemma getCurrentUser_on_failure_witness :
  ApiAuthService.getCurrentUser (Mock.responding Mock.forbidden) Mock.auth
    Mock.signed_in
  = (Fulfilled VNull,
     {| token := VNull;
        trace := (trace (snd (ApiAuthService.makeRequest
                                (Mock.responding Mock.forbidden) Mock.auth
                                "/auth/me" (ApiAuthService.request "GET" None)
                                Mock.signed_in))
                    ++ [ClearToken])%list |})
  /\ fst (ApiAuthService.getCurrentUser (Mock.responding Mock.unavailable)
            Mock.auth Mock.signed_in)
     = Rejected (new_Error "An unexpected error occurred. Please try again later.").
Proof.
  split.
  - apply (proj1 (getCurrentUser_on_failure (Mock.responding Mock.forbidden)
                    Mock.auth Mock.signed_in _
                    (http_error "Forbidden" Mock.forbidden) eq_refl)).
    right. reflexivity.
  - rewrite (proj1 (proj2 (getCurrentUser_on_failure
                             (Mock.responding Mock.unavailable) Mock.auth
                             Mock.signed_in _
                             (http_error "Service Unavailable" Mock.unavailable)
                             eq_refl)
                      ltac:(discriminate) ltac:(discriminate))).
    reflexivity.
Defined.

(** C10: if the pipeline request of [login] or of [register] rejects, the
    method rejects with the normalized error and the token store is as it
    was before the call: the token is the same and no [setToken] or
    [clearToken] has been made. *)
Theorem login_register_failure_keeps_token (P : platform)
    (this : ApiAuthService.t) (w w1 : world) (e : value) :
  (forall username password,
      ApiAuthService.makeRequest P this "/auth/login"
        (ApiAuthService.request "POST"
           (Some (JSON_stringify P
                    (VObj [("username", VStr username);
                           ("password", VStr password)])))) w
      = (Rejected e, w1) ->
      ApiAuthService.login P this username password w
      = (Rejected (new_Error (ApiErrorHandler.handle e)), w1)
      /\ token w1 = token w
      /\ token_writes (trace w1) = token_writes (trace w))
  /\ (forall userData,
        ApiAuthService.makeRequest P this "/auth/register"
          (ApiAuthService.request "POST" (Some (JSON_stringify P userData))) w
        = (Rejected e, w1) ->
        ApiAuthService.register P this userData w
        = (Rejected (new_Error (ApiErrorHandler.handle e)), w1)
        /\ token w1 = token w
        /\ token_writes (trace w1) = token_writes (trace w)).
Proof.
  split.
  - intros username password H.
    pose proof (auth_makeRequest_frame P this "/auth/login"
                  (ApiAuthService.request "POST"
                     (Some (JSON_stringify P
                              (VObj [("username", VStr username);
                                     ("password", VStr password)])))) w) as Hframe.
    cbv zeta in Hframe. rewrite H in Hframe. simpl in Hframe.
    destruct Hframe as (Htok & Hwrites & _).
    unfold ApiAuthService.login, ApiAuthService.normalize. run_js.
    rewrite H. auto.
  - intros userData H.
    pose proof (auth_makeRequest_frame P this "/auth/register"
                  (ApiAuthService.request "POST"
                     (Some (JSON_stringify P userData))) w) as Hframe.
    cbv zeta in Hframe. rewrite H in Hframe. simpl in Hframe.
    destruct Hframe as (Htok & Hwrites & _).
    unfold ApiAuthService.register, ApiAuthService.normalize. run_js.
    rewrite H. auto.
Qed.

Lemma login_register_failure_keeps_token_witness :
  (fst (ApiAuthService.login (Mock.responding Mock.unauthorized) Mock.auth
          "ada" "secret" Mock.signed_in)
   = Rejected (new_Error "Authentication required. Please log in again.")
   /\ token (snd (ApiAuthService.login (Mock.responding Mock.unauthorized)
                    Mock.auth "ada" "secret" Mock.signed_in))
      = token Mock.signed_in)
  /\ token (snd (ApiAuthService.register (Mock.responding Mock.unprocessable)
                   Mock.auth (VObj [("username", VStr "ada")]) Mock.signed_in))
     = token Mock.signed_in.
Proof.
  split.
  - destruct (proj1 (login_register_failure_keeps_token
                       (Mock.responding Mock.unauthorized) Mock.auth
                       Mock.signed_in _
                       (http_error "Unauthorized" Mock.unauthorized))
                "ada" "secret" eq_refl) as (Hrun & Htok & _).
    rewrite Hrun. split; [reflexivity | exact Htok].
  - destruct (proj2 (login_register_failure_keeps_token
                       (Mock.responding Mock.unprocessable) Mock.auth
                       Mock.signed_in _
                       (http_error "A; B" Mock.unprocessable))
                (VObj [("username", VStr "ada")]) eq_refl) as (Hrun & Htok & _).
    rewrite Hrun. exact Htok.
Defined.

(* ================================================================== *)
(** ** The scenarios of the specification *)
(* ================================================================== *)

(** No token stored, the backend answers 200 with [[{"id":"1"}]]:
    [getConversations()] resolves with that array. *)
Example scenario_conversations_listed :
  fst (ApiChatService.getConversations (Mock.responding Mock.conversations)
         Mock.chat Mock.fresh)
  = Fulfilled (VArr [VObj [("id", VStr "1")]]).
Proof. reflexivity. Qed.

(** The backend answers 401 with the body [{}]: [login()] rejects with the
    fixed message of the code. *)
Example scenario_login_unauthorized :
  fst (ApiAuthService.login (Mock.responding Mock.unauthorized) Mock.auth
         "ada" "secret" Mock.fresh)
  = Rejected (new_Error "Authentication required. Please log in again.").
Proof. reflexivity. Qed.

(** The network is unreachable: the pipeline rejects with a message that
    starts with "Network request failed". *)
Example scenario_network_unreachable :
  fst (ApiChatService.makeRequest Mock.unreachable Mock.chat "/conversations"
         (ApiChatService.request "GET" None) Mock.fresh)
  = Rejected (new_Error "Network request failed: Failed to fetch").
Proof. reflexivity. Qed.

(** A successful login stores the token it received. *)
Example scenario_login_stores_token :
  let session :=
    VObj [("user", VObj [("id", VNum 7)]); ("token", VStr "abc")] in
  ApiAuthService.login (Mock.responding (Mock.json_response 200 "OK" session))
    Mock.auth "ada" "secret" Mock.fresh
  = (Fulfilled (VObj [("id", VNum 7)]),
     {| token := VStr "abc";
        trace := [Fetch "https://api.example.com/auth/login"
                    (auth_init (ApiAuthService.request "POST" (Some "{}")) VNull);
                  SetToken (VStr "abc")] |}).
Proof. reflexivity. Qed.

(* ================================================================== *)
(** ** Further properties of the normalizer and of the pipeline *)
(* ================================================================== *)

Lemma switch_status_range (status : value) :
  In (ApiErrorHandler.switch_status status ApiErrorHandler.unexpected)
    [ApiErrorHandler.msg400; ApiErrorHandler.msg401; ApiErrorHandler.msg403;
     ApiErrorHandler.msg404; ApiErrorHandler.msg422; ApiErrorHandler.msg500;
     ApiErrorHandler.unexpected].
Proof.
  unfold ApiErrorHandler.switch_status.
  destruct status as [| |b|n|s|xs|props|nm msg props];
    try (cbn [In]; tauto).
  repeat match goal with
         | |- context [?a =? ?b] => destruct (a =? b); [cbn [In]; tauto|]
         end.
  cbn [In]; tauto.
Qed.

(** X1: whatever it is given, [handle] returns either the input itself,
    when that is a string, or one of its seven fixed messages; [null],
    [undefined], numbers, booleans and arrays give the generic one. *)
Theorem handle_range (error : value) :
  match error with
  | VStr s => ApiErrorHandler.handle error = s
  | VObj _ | VError _ _ _ =>
      In (ApiErrorHandler.handle error)
        [ApiErrorHandler.msg400; ApiErrorHandler.msg401; ApiErrorHandler.msg403;
         ApiErrorHandler.msg404; ApiErrorHandler.msg422; ApiErrorHandler.msg500;
         ApiErrorHandler.unexpected]
  | _ => ApiErrorHandler.handle error
         = "An unexpected error occurred. Please try again later."
  end.
Proof.
  destruct error as [| |b|n|s|xs|props|nm msg props];
    unfold ApiErrorHandler.handle; cbn [truthy typeof to_string].
  - reflexivity.
  - reflexivity.
  - destruct b; reflexivity.
  - destruct (negb (n =? 0)); reflexivity.
  - destruct (negb (s =? "")%string); reflexivity.
  - reflexivity.
  - apply switch_status_range.
  - apply switch_status_range.
Qed.

(** X2: the pipeline of either client never writes the token store and
    never calls the network more than once, whatever the outcome of the
    call (no retry); a call it makes goes to the URL built from the
    endpoint. *)
Theorem pipeline_no_retry_no_token_write (P : platform)
    (chat : ApiChatService.t) (auth : ApiAuthService.t)
    (endpoint : string) (options : RequestInit) (w : world) :
  let wc := snd (ApiChatService.makeRequest P chat endpoint options w) in
  let wa := snd (ApiAuthService.makeRequest P auth endpoint options w) in
  (token wc = token w
   /\ token_writes (trace wc) = token_writes (trace w)
   /\ exists calls,
        fetches (trace wc) = (fetches (trace w) ++ calls)%list
        /\ (length calls <= 1)%nat
        /\ forall call, In call calls ->
             exists init, call = Fetch (ApiChatService.buildUrl chat endpoint) init)
  /\ (token wa = token w
      /\ token_writes (trace wa) = token_writes (trace w)
      /\ exists calls,
           fetches (trace wa) = (fetches (trace w) ++ calls)%list
           /\ (length calls <= 1)%nat
           /\ forall call, In call calls ->
                exists init,
                  call = Fetch (ApiAuthService.buildUrl auth endpoint) init).
Proof.
  cbv zeta. split.
  - destruct (chat_makeRequest_frame P chat endpoint options w) as (Ht & Hw & Hf).
    repeat split; [exact Ht | exact Hw |].
    eexists. split; [exact Hf|]. split; [cbn [length]; lia|].
    intros call [<- | []]. eexists. reflexivity.
  - destruct (auth_makeRequest_frame P auth endpoint options w) as (Ht & Hw & Hf).
    repeat split; [exact Ht | exact Hw |].
    eexists. split; [exact Hf|]. split; [cbn [length]; lia|].
    intros call [<- | []]. eexists. reflexivity.
Qed.

Lemma default_headers :
  new_Headers [("Content-Type", "application/json")]
  = [("content-type", "application/json")].
Proof. reflexivity. Qed.

Lemma lower_authorization : lower "Authorization" = "authorization".
Proof. reflexivity. Qed.

(** The headers sent when the caller passes none. *)
Lemma sent_headers_default (options : RequestInit) (tok : value) :
  headers options = None ->
  sent_headers options tok
  = ("content-type", "application/json")
      :: (if truthy tok
          then [("authorization", normalize_value ("Bearer " ++ to_string tok))]
          else []).
Proof.
  intros H. unfold sent_headers. rewrite H.
  unfold spread. rewrite default_headers.
  change (headers_has [("content-type", "application/json")] "Authorization")
    with false.
  cbn [negb]. rewrite andb_true_r.
  unfold headers_set.
  change (headers_has [("content-type", "application/json")] "Authorization")
    with false.
  rewrite lower_authorization.
  destruct (truthy tok); reflexivity.
Qed.

(** X3: when the caller passes no headers, as every public method does, and
    the stored token makes an acceptable header value, the one request made
    carries the caller's method and body, the JSON content type, and
    [Authorization: Bearer <token>] (with the whitespace at its end
    stripped) exactly when a non-empty token is stored; the auth client
    asks for credentials ['include'] unless the caller chose a mode, the
    chat client passes the caller's mode on. *)
Theorem request_sent_without_caller_headers (P : platform)
    (chat : ApiChatService.t) (auth : ApiAuthService.t)
    (endpoint : string) (options : RequestInit) (w : world) :
  headers options = None ->
  (truthy (token w) = true ->
   valid_header_value ("Bearer " ++ to_string (token w)) = true) ->
  let sent :=
    ("content-type", "application/json")
      :: (if truthy (token w)
          then [("authorization",
                 normalize_value ("Bearer " ++ to_string (token w)))]
          else []) in
  fetches (trace (snd (ApiChatService.makeRequest P chat endpoint options w)))
  = (fetches (trace w)
       ++ [Fetch (ApiChatService.buildUrl chat endpoint)
             {| fi_method := method options;
                fi_body := body options;
                fi_headers := sent;
                fi_credentials := credentials options |}])%list
  /\ fetches (trace (snd (ApiAuthService.makeRequest P auth endpoint options w)))
     = (fetches (trace w)
          ++ [Fetch (ApiAuthService.buildUrl auth endpoint)
                {| fi_method := method options;
                   fi_body := body options;
                   fi_headers := sent;
                   fi_credentials :=
                     Some (match credentials options with
                           | Some c => c
                           | None => "include"
                           end) |}])%list.
Proof.
  intros H _. cbv zeta.
  destruct (chat_makeRequest_frame P chat endpoint options w) as (_ & _ & Hc).
  destruct (auth_makeRequest_frame P auth endpoint options w) as (_ & _ & Ha).
  rewrite Hc, Ha. unfold chat_init, auth_init.
  rewrite (sent_headers_default options (token w) H).
  destruct (credentials options); auto.
Qed.

Lemma request_sent_without_caller_headers_witness :
  fetches (trace (snd (ApiChatService.makeRequest
                         (Mock.responding Mock.conversations) Mock.chat
                         "/conversations" (ApiChatService.request "GET" None)
                         Mock.padded_token)))
  = [Fetch "https://api.example.com/conversations"
       {| fi_method := Some "GET";
          fi_body := None;
          fi_headers := [("content-type", "application/json");
                         ("authorization", "Bearer t0k3n")];
          fi_credentials := None |}].
Proof.
  apply (proj1 (request_sent_without_caller_headers
                  (Mock.responding Mock.conversations) Mock.chat Mock.auth
                  "/conversations" (ApiChatService.request "GET" None)
                  Mock.padded_token eq_refl (fun _ => eq_refl))).
Defined.

Lemma put_keys (o : list (string * string)) (k v k' : string) :
  In k' (map fst (put o k v)) <-> In k' (map fst o) \/ k' = k.
Proof.
  induction o as [|[k0 v0] rest IH]; cbn [put map fst In].
  - intuition.
  - destruct (String.eqb_spec k0 k) as [->|Hne]; cbn [map fst In].
    + intuition.
    + rewrite IH. intuition.
Qed.

Lemma assigned_keys (kvs o : list (string * string)) (k : string) :
  In k (map fst (fold_left (fun acc p => put acc (fst p) (snd p)) kvs o))
  <-> In k (map fst o) \/ In k (map fst kvs).
Proof.
  revert o.
  induction kvs as [|[k0 v0] rest IH]; intros o; cbn [fold_left map fst snd In].
  - intuition.
  - rewrite IH, put_keys. intuition.
Qed.

Lemma in_insert_by_index (p x : string * string) (l : list (string * string)) :
  In x (insert_by_index p l) <-> x = p \/ In x l.
Proof.
  induction l as [|q rest IH]; cbn [insert_by_index In].
  - intuition.
  - destruct (index_of p <=? index_of q)%N; cbn [In].
    + intuition.
    + rewrite IH. intuition.
Qed.

Lemma in_enumeration_order (x : string * string) (o : list (string * string)) :
  In x (enumeration_order o) <-> In x o.
Proof.
  unfold enumeration_order. rewrite in_app_iff.
  assert (Hsorted : forall l,
             In x (fold_right insert_by_index [] l) <-> In x l).
  { induction l as [|q rest IH]; cbn [fold_right In]; [tauto|].
    rewrite in_insert_by_index, IH. intuition. }
  rewrite Hsorted, !filter_In.
  destruct (is_index x); cbn [negb]; intuition discriminate.
Qed.

Lemma spread_keys (o kvs : list (string * string)) (k : string) :
  In k (map fst (spread o (Some (HeadersRecord kvs))))
  <-> In k (map fst o) \/ In k (map fst kvs).
Proof.
  unfold spread, own_entries. rewrite <- assigned_keys.
  rewrite !in_map_iff. split; intros (x & Hx & Hin); exists x; split; auto;
    apply in_enumeration_order; exact Hin.
Qed.

Lemma headers_has_new (init : list (string * string)) (name k : string) :
  In k (map fst init) ->
  lower k = lower name ->
  headers_has (new_Headers init) name = true.
Proof.
  intros Hin Hlow. unfold headers_has, new_Headers.
  apply existsb_exists.
  apply in_map_iff in Hin. destruct Hin as ([k1 v] & Hk & Hin). simpl in Hk. subst k1.
  exists (lower k, normalize_value v). split.
  - apply in_map_iff. exists (k, v). auto.
  - unfold named. cbn [fst]. rewrite Hlow. apply String.eqb_refl.
Qed.

(** X4: an authorization header that the caller supplies as a property of a
    plain headers object, in whatever letter case, is never replaced: when
    the caller's names and values are acceptable to [Headers], the request
    carries the caller's headers laid over the JSON content type and no
    bearer token is added, whatever token is stored. *)
Theorem caller_authorization_kept (P : platform) (this : ApiChatService.t)
    (endpoint : string) (options : RequestInit) (w : world)
    (hs : list (string * string)) (name : string) :
  headers options = Some (HeadersRecord hs) ->
  forallb (fun p => valid_header_name (fst p) && valid_header_value (snd p)) hs
  = true ->
  In name (map fst hs) ->
  lower name = "authorization" ->
  fetches (trace (snd (ApiChatService.makeRequest P this endpoint options w)))
  = (fetches (trace w)
       ++ [Fetch (ApiChatService.buildUrl this endpoint)
             {| fi_method := method options;
                fi_body := body options;
                fi_headers :=
                  new_Headers
                    (spread [("Content-Type", "application/json")]
                       (Some (HeadersRecord hs)));
                fi_credentials := credentials options |}])%list.
Proof.
  intros H _ Hin Hlow.
  destruct (chat_makeRequest_frame P this endpoint options w) as (_ & _ & Hc).
  rewrite Hc. unfold chat_init, sent_headers. rewrite H.
  rewrite (headers_has_new _ "Authorization" name).
  - rewrite andb_false_r. reflexivity.
  - apply spread_keys. right. exact Hin.
  - rewrite Hlow. reflexivity.
Qed.

Lemma caller_authorization_kept_witness :
  fetches (trace (snd (ApiChatService.makeRequest
                         (Mock.responding Mock.conversations) Mock.chat
                         "/conversations" Mock.own_authorization Mock.signed_in)))
  = (fetches (trace Mock.signed_in)
       ++ [Fetch (ApiChatService.buildUrl Mock.chat "/conversations")
             {| fi_method := method Mock.own_authorization;
                fi_body := body Mock.own_authorization;
                fi_headers :=
                  new_Headers
                    (spread [("Content-Type", "application/json")]
                       (Some (HeadersRecord
                                [("authorization", "Basic dXNlcg==")])));
                fi_credentials := credentials Mock.own_authorization |}])%list.
Proof.
  apply (caller_authorization_kept (Mock.responding Mock.conversations) Mock.chat
           "/conversations" Mock.own_authorization Mock.signed_in
           [("authorization", "Basic dXNlcg==")] "authorization").
  - reflexivity.
  - reflexivity.
  - simpl. left. reflexivity.
  - reflexivity.
Defined.

(** X23: headers that the caller supplies as a [Headers] object are not
    sent: the spread copies none of them, so the request is the one made
    with no caller headers at all, bearer token included even when the
    object held an authorization header of its own. *)
Theorem caller_headers_object_ignored (P : platform) (this : ApiChatService.t)
    (endpoint : string) (options : RequestInit) (w : world) (h : Headers) :
  headers options = Some (HeadersInstance h) ->
  (truthy (token w) = true ->
   valid_header_value ("Bearer " ++ to_string (token w)) = true) ->
  fetches (trace (snd (ApiChatService.makeRequest P this endpoint options w)))
  = (fetches (trace w)
       ++ [Fetch (ApiChatService.buildUrl this endpoint)
             {| fi_method := method options;
                fi_body := body options;
                fi_headers :=
                  ("content-type", "application/json")
                    :: (if truthy (token w)
                        then [("authorization",
                               normalize_value
                                 ("Bearer " ++ to_string (token w)))]
                        else []);
                fi_credentials := credentials options |}])%list.
Proof.
  intros H _.
  destruct (chat_makeRequest_frame P this endpoint options w) as (_ & _ & Hc).
  rewrite Hc. unfold chat_init. do 3 f_equal.
  rewrite <- (sent_headers_default
                {| method := method options; body := body options;
                   headers := None; credentials := credentials options |}
                (token w) eq_refl).
  unfold sent_headers. rewrite H. reflexivity.
Qed.

Lemma caller_headers_object_ignored_witness :
  fetches (trace (snd (ApiChatService.makeRequest
                         (Mock.responding Mock.conversations) Mock.chat
                         "/conversations" Mock.headers_object Mock.signed_in)))
  = [Fetch "https://api.example.com/conversations"
       {| fi_method := Some "GET";
          fi_body := None;
          fi_headers := [("content-type", "application/json");
                         ("authorization", "Bearer t0k3n")];
          fi_credentials := None |}].
Proof.
  apply (caller_headers_object_ignored (Mock.responding Mock.conversations)
           Mock.chat "/conversations" Mock.headers_object Mock.signed_in
           [("authorization", "Basic dXNlcg==")] eq_refl (fun _ => eq_refl)).
Defined.










(* ================================================================== *)
(** ** Further properties of the two clients *)
(* ================================================================== *)

Lemma handle_http_error (message : string) (resp : Response) :
  ApiErrorHandler.handle (http_error message resp)
  = ApiErrorHandler.switch_status (VNum (status resp)) ApiErrorHandler.unexpected.
Proof. reflexivity. Qed.

Lemma handle_transport_error (e : value) :
  ApiErrorHandler.handle (transport_error e) = ApiErrorHandler.unexpected.
Proof. unfold transport_error. destruct (nullish e); reflexivity. Qed.

(** The three sign-in methods, once the pipeline has settled. *)
Ltac sign_in H :=
  unfold ApiAuthService.login, ApiAuthService.register,
    ApiAuthService.refreshToken, ApiAuthService.normalize;
  run_js; rewrite H; cbv beta iota.

(** X8: when the pipeline fulfils with a body [res] other than [null],
    [login], [register] and [refreshToken] hand [res.token] to the token
    store and resolve with [res.user]; nothing is validated, so a body
    without those fields stores and returns [undefined]. *)
Theorem sign_in_stores_token (P : platform) (this : ApiAuthService.t)
    (w w1 : world) (res : value) :
  nullish res = false ->
  let signed :=
    (Fulfilled (get res "user"),
     {| token := get res "token";
        trace := (trace w1 ++ [SetToken (get res "token")])%list |}) in
  (forall username password,
      ApiAuthService.makeRequest P this "/auth/login"
        (ApiAuthService.request "POST"
           (Some (JSON_stringify P
                    (VObj [("username", VStr username);
                           ("password", VStr password)])))) w
      = (Fulfilled res, w1) ->
      ApiAuthService.login P this username password w = signed)
  /\ (forall userData,
        ApiAuthService.makeRequest P this "/auth/register"
          (ApiAuthService.request "POST" (Some (JSON_stringify P userData))) w
        = (Fulfilled res, w1) ->
        ApiAuthService.register P this userData w = signed)
  /\ (ApiAuthService.makeRequest P this "/auth/refresh"
        (ApiAuthService.request "POST" None) w
      = (Fulfilled res, w1) ->
      ApiAuthService.refreshToken P this w = signed).
Proof.
  intros Hnull. cbv zeta. repeat split; intros; sign_in H;
    rewrite Hnull; reflexivity.
Qed.

Lemma sign_in_stores_token_witness :
  ApiAuthService.refreshToken (Mock.responding Mock.logged_in) Mock.auth
    Mock.signed_in
  = (Fulfilled (VObj [("id", VNum 7)]),
     {| token := VStr "abc";
        trace := (trace (snd (ApiAuthService.makeRequest
                                (Mock.responding Mock.logged_in) Mock.auth
                                "/auth/refresh"
                                (ApiAuthService.request "POST" None)
                                Mock.signed_in))
                    ++ [SetToken (VStr "abc")])%list |}).
Proof.
  apply (proj2 (proj2 (sign_in_stores_token (Mock.responding Mock.logged_in)
                         Mock.auth Mock.signed_in _ Mock.session eq_refl))
           eq_refl).
Defined.

(** X9: when the pipeline fulfils with [null] (a 2xx response whose body
    could not be read), [login], [register] and [refreshToken] reject with
    the generic message and leave the token store as the pipeline left
    it. *)
Theorem sign_in_without_body (P : platform) (this : ApiAuthService.t)
    (w w1 : world) (res : value) :
  nullish res = true ->
  let failed :=
    (Rejected (new_Error "An unexpected error occurred. Please try again later."),
     w1) in
  (forall username password,
      ApiAuthService.makeRequest P this "/auth/login"
        (ApiAuthService.request "POST"
           (Some (JSON_stringify P
                    (VObj [("username", VStr username);
                           ("password", VStr password)])))) w
      = (Fulfilled res, w1) ->
      ApiAuthService.login P this username password w = failed)
  /\ (forall userData,
        ApiAuthService.makeRequest P this "/auth/register"
          (ApiAuthService.request "POST" (Some (JSON_stringify P userData))) w
        = (Fulfilled res, w1) ->
        ApiAuthService.register P this userData w = failed)
  /\ (ApiAuthService.makeRequest P this "/auth/refresh"
        (ApiAuthService.request "POST" None) w
      = (Fulfilled res, w1) ->
      ApiAuthService.refreshToken P this w = failed).
Proof.
  intros Hnull. cbv zeta. repeat split; intros; sign_in H;
    rewrite Hnull; reflexivity.
Qed.

Lemma sign_in_without_body_witness :
  ApiAuthService.login (Mock.responding (Mock.unparsable 200 "OK")) Mock.auth
    "ada" "secret" Mock.signed_in
  = (Rejected (new_Error "An unexpected error occurred. Please try again later."),
     snd (ApiAuthService.makeRequest (Mock.responding (Mock.unparsable 200 "OK"))
            Mock.auth "/auth/login"
            (ApiAuthService.request "POST" (Some "{}")) Mock.signed_in)).
Proof.
  apply (proj1 (sign_in_without_body (Mock.responding (Mock.unparsable 200 "OK"))
                  Mock.auth Mock.signed_in _ VNull eq_refl)
           "ada" "secret" eq_refl).
Defined.

(** X10: if the pipeline request of [refreshToken] rejects, the method
    rejects with the normalized message-only error and the stored token is
    kept: a failed refresh does not sign the user out. *)
Theorem refreshToken_failure_keeps_token (P : platform)
    (this : ApiAuthService.t) (w w1 : world) (e : value) :
  ApiAuthService.makeRequest P this "/auth/refresh"
    (ApiAuthService.request "POST" None) w = (Rejected e, w1) ->
  ApiAuthService.refreshToken P this w
  = (Rejected (new_Error (ApiErrorHandler.handle e)), w1)
  /\ token w1 = token w
  /\ token_writes (trace w1) = token_writes (trace w).
Proof.
  intros H.
  pose proof (auth_makeRequest_frame P this "/auth/refresh"
                (ApiAuthService.request "POST" None) w) as Hframe.
  cbv zeta in Hframe. rewrite H in Hframe. cbn [snd] in Hframe.
  destruct Hframe as (Htok & Hwrites & _).
  sign_in H. auto.
Qed.

Lemma refreshToken_failure_keeps_token_witness :
  fst (ApiAuthService.refreshToken (Mock.responding Mock.unauthorized) Mock.auth
         Mock.signed_in)
  = Rejected (new_Error "Authentication required. Please log in again.")
  /\ token (snd (ApiAuthService.refreshToken (Mock.responding Mock.unauthorized)
                   Mock.auth Mock.signed_in))
     = VStr "t0k3n".
Proof.
  destruct (refreshToken_failure_keeps_token (Mock.responding Mock.unauthorized)
              Mock.auth Mock.signed_in _
              (http_error "Unauthorized" Mock.unauthorized) eq_refl)
    as (Hrun & Htok & _).
  rewrite Hrun. split; [reflexivity | exact Htok].
Defined.

(** X11: when the pipeline fulfils, [getCurrentUser] resolves with the body
    as it is and writes nothing to the token store; a 2xx response whose
    body could not be read therefore resolves with [null] without clearing
    the token. *)
Theorem getCurrentUser_success (P : platform) (this : ApiAuthService.t)
    (w w1 : world) (user : value) :
  ApiAuthService.makeRequest P this "/auth/me" (ApiAuthService.request "GET" None) w
  = (Fulfilled user, w1) ->
  ApiAuthService.getCurrentUser P this w = (Fulfilled user, w1)
  /\ token w1 = token w
  /\ token_writes (trace w1) = token_writes (trace w).
Proof.
  intros H.
  pose proof (auth_makeRequest_frame P this "/auth/me"
                (ApiAuthService.request "GET" None) w) as Hframe.
  cbv zeta in Hframe. rewrite H in Hframe. cbn [snd] in Hframe.
  destruct Hframe as (Htok & Hwrites & _).
  unfold ApiAuthService.getCurrentUser. run_js. rewrite H. auto.
Qed.

Lemma getCurrentUser_success_witness :
  fst (ApiAuthService.getCurrentUser (Mock.responding (Mock.unparsable 200 "OK"))
         Mock.auth Mock.signed_in)
  = Fulfilled VNull
  /\ token (snd (ApiAuthService.getCurrentUser
                   (Mock.responding (Mock.unparsable 200 "OK")) Mock.auth
                   Mock.signed_in))
     = VStr "t0k3n".
Proof.
  destruct (getCurrentUser_success (Mock.responding (Mock.unparsable 200 "OK"))
              Mock.auth Mock.signed_in _ VNull eq_refl) as (Hrun & Htok & _).
  rewrite Hrun. split; [reflexivity | exact Htok].
Defined.



(** X13: when the network call itself fails, the auth methods other than
    [logout] reject with the generic message (the text "Network request
    failed" does not reach their caller) and keep the stored token;
    [logout] resolves and clears it. *)
Theorem auth_against_network_failure (P : platform) (this : ApiAuthService.t)
    (w : world) (e : value) (c : auth_call) :
  (forall url init, network P url init = Rejected e) ->
  fst (run_auth P this c w)
  = match c with
    | Logout => Fulfilled VUndefined
    | _ => Rejected
             (new_Error "An unexpected error occurred. Please try again later.")
    end
  /\ token (snd (run_auth P this c w))
     = match c with
       | Logout => VNull
       | _ => token w
       end.
Proof.
  intros Hnet.
  destruct c; cbn [run_auth];
    unfold ApiAuthService.login, ApiAuthService.register, ApiAuthService.logout,
      ApiAuthService.refreshToken, ApiAuthService.getCurrentUser,
      ApiAuthService.normalize;
    run_js; rewrite auth_makeRequest_run; cbv zeta; rewrite Hnet;
    cbv beta iota; rewrite ?handle_transport_error;
    try (split; reflexivity).
  unfold transport_error. destruct (nullish e); split; reflexivity.
Qed.

Lemma auth_against_network_failure_witness :
  fst (run_auth Mock.unreachable Mock.auth (Login "ada" "secret") Mock.signed_in)
  = Rejected (new_Error "An unexpected error occurred. Please try again later.")
  /\ token (snd (run_auth Mock.unreachable Mock.auth (Login "ada" "secret")
                   Mock.signed_in))
     = token Mock.signed_in.
Proof.
  apply (auth_against_network_failure Mock.unreachable Mock.auth Mock.signed_in
           Mock.failed_to_fetch (Login "ada" "secret")).
  reflexivity.
Defined.

(** The two awaiting methods of the chat client in terms of the pipeline. *)
Lemma claim_unclaim_run (P : platform) (this : ApiChatService.t)
    (conversationId : string) (w : world) :
  let settle (r : promise value * world) :=
    (match fst r with
     | Fulfilled _ => Fulfilled VUndefined
     | Rejected e => Rejected (new_Error (ApiErrorHandler.handle e))
     end, snd r) in
  ApiChatService.claimConversation P this conversationId w
  = settle (ApiChatService.makeRequest P this
              ("/expert/conversations/" ++ encodeURIComponent P conversationId
                 ++ "/claim")
              (ApiChatService.request "POST" None) w)
  /\ ApiChatService.unclaimConversation P this conversationId w
     = settle (ApiChatService.makeRequest P this
                 ("/expert/conversations/" ++ encodeURIComponent P conversationId
                    ++ "/unclaim")
                 (ApiChatService.request "POST" None) w).
Proof.
  cbv zeta.
  unfold ApiChatService.claimConversation, ApiChatService.unclaimConversation,
    ApiChatService.normalize.
  run_js. split.
  - destruct (ApiChatService.makeRequest P this _ _ w) as [[v|e] w1]; reflexivity.
  - destruct (ApiChatService.makeRequest P this _ _ w) as [[v|e] w1]; reflexivity.
Qed.

(** X14: [claimConversation] and [unclaimConversation] settle after the
    pipeline has: they resolve with no value, discarding the body, when it
    fulfils, and reject with the normalized message-only error when it
    rejects; they do nothing else. *)
Theorem claim_unclaim_outcome (P : platform) (this : ApiChatService.t)
    (conversationId : string) (w : world) :
  let settle (r : promise value * world) :=
    (match fst r with
     | Fulfilled _ => Fulfilled VUndefined
     | Rejected e => Rejected (new_Error (ApiErrorHandler.handle e))
     end, snd r) in
  ApiChatService.claimConversation P this conversationId w
  = settle (ApiChatService.makeRequest P this
              ("/expert/conversations/" ++ encodeURIComponent P conversationId
                 ++ "/claim")
              (ApiChatService.request "POST" None) w)
  /\ ApiChatService.unclaimConversation P this conversationId w
     = settle (ApiChatService.makeRequest P this
                 ("/expert/conversations/" ++ encodeURIComponent P conversationId
                    ++ "/unclaim")
                 (ApiChatService.request "POST" None) w).
Proof.
  cbv zeta.
  unfold ApiChatService.claimConversation, ApiChatService.unclaimConversation,
    ApiChatService.normalize.
  run_js. split.
  - destruct (ApiChatService.makeRequest P this _ _ w) as [[v|e] w1]; reflexivity.
  - destruct (ApiChatService.makeRequest P this _ _ w) as [[v|e] w1]; reflexivity.
Qed.

Lemma fetches_app (l1 l2 : list event) :
  fetches (l1 ++ l2)%list = (fetches l1 ++ fetches l2)%list.
Proof. apply filter_app. Qed.

Lemma token_writes_app (l1 l2 : list event) :
  token_writes (l1 ++ l2)%list = (token_writes l1 ++ token_writes l2)%list.
Proof. apply filter_app. Qed.

(** X15: no operation of the chat client ever writes the token store or
    calls the network more than once; the three unimplemented operations
    call nothing at all: they reject with their fixed message and change
    nothing. *)
Theorem chat_operation_effects (P : platform) (this : ApiChatService.t)
    (c : chat_call) (w : world) :
  let w' := snd (run_chat P this c w) in
  token w' = token w
  /\ token_writes (trace w') = token_writes (trace w)
  /\ match unimplemented c with
     | Some message =>
         run_chat P this c w = (Rejected (new_Error message), w)
     | None =>
         exists calls,
           fetches (trace w') = (fetches (trace w) ++ calls)%list
           /\ (length calls <= 1)%nat
     end.
Proof.
  cbv zeta.
  destruct c; cbn [run_chat unimplemented];
    try (repeat split; reflexivity);
    try (rewrite ?getConversations_adopts_pipeline,
           ?getConversation_adopts_pipeline,
           ?createConversation_adopts_pipeline, ?getMessages_adopts_pipeline,
           ?sendMessage_adopts_pipeline, ?getExpertQueue_adopts_pipeline,
           ?getExpertProfile_adopts_pipeline,
           ?updateExpertProfile_adopts_pipeline,
           ?getExpertAssignmentHistory_adopts_pipeline;
         match goal with
         | |- context [ApiChatService.makeRequest ?P ?this ?endpoint ?options ?w] =>
             destruct (chat_makeRequest_frame P this endpoint options w)
               as (Ht & Hw & Hf)
         end;
         repeat split;
      [exact Ht | exact Hw | eexists; split; [exact Hf | cbn [length]; lia]]).
  - destruct (claim_unclaim_run P this conversationId w) as [-> _].
    cbn [snd].
    match goal with
    | |- context [ApiChatService.makeRequest ?P ?this ?endpoint ?options ?w] =>
        destruct (chat_makeRequest_frame P this endpoint options w)
          as (Ht & Hw & Hf)
    end.
    repeat split;
      [exact Ht | exact Hw | eexists; split; [exact Hf | cbn [length]; lia]].
  - destruct (claim_unclaim_run P this conversationId w) as [_ ->].
    cbn [snd].
    match goal with
    | |- context [ApiChatService.makeRequest ?P ?this ?endpoint ?options ?w] =>
        destruct (chat_makeRequest_frame P this endpoint options w)
          as (Ht & Hw & Hf)
    end.
    repeat split;
      [exact Ht | exact Hw | eexists; split; [exact Hf | cbn [length]; lia]].
Qed.

Ltac settle_pipeline :=
  match goal with
  | |- context [ApiAuthService.makeRequest ?P ?this ?endpoint ?options ?w] =>
      let Ht := fresh "Ht" in
      let Hw := fresh "Hw" in
      let Hf := fresh "Hf" in
      destruct (auth_makeRequest_frame P this endpoint options w)
        as (Ht & Hw & Hf);
      destruct (ApiAuthService.makeRequest P this endpoint options w)
        as [[?res|?e] ?w1];
      cbn [snd] in Ht, Hw, Hf
  end.

Ltac count_events :=
  cbn [snd token trace];
  rewrite ?token_writes_app, ?fetches_app;
  cbn [fetches token_writes filter is_fetch is_token_write];
  rewrite ?app_nil_r.

(** X16: every operation of the auth client makes at most one network call
    and at most one write to the token store: [login], [register] and
    [refreshToken] only ever set the token, [logout] and [getCurrentUser]
    only ever clear it, and when nothing is written the token is the one
    stored before. *)
Theorem auth_operation_effects (P : platform) (this : ApiAuthService.t)
    (c : auth_call) (w : world) :
  let w' := snd (run_auth P this c w) in
  (exists calls,
      fetches (trace w') = (fetches (trace w) ++ calls)%list
      /\ (length calls <= 1)%nat)
  /\ ((token_writes (trace w') = token_writes (trace w) /\ token w' = token w)
      \/ (signs_in c = true
          /\ token_writes (trace w')
             = (token_writes (trace w) ++ [SetToken (token w')])%list)
      \/ (signs_in c = false
          /\ token w' = VNull
          /\ token_writes (trace w')
             = (token_writes (trace w) ++ [ClearToken])%list)).
Proof.
  cbv zeta.
  destruct c; cbn [run_auth signs_in];
    unfold ApiAuthService.login, ApiAuthService.register, ApiAuthService.logout,
      ApiAuthService.refreshToken, ApiAuthService.getCurrentUser,
      ApiAuthService.normalize;
    run_js; settle_pipeline; unfold ret, throw; cbv beta iota;
    try match goal with
        | |- context [nullish ?v] => destruct (nullish v)
        | |- context [strict_eq_num ?a ?n || ?b] =>
            destruct (strict_eq_num a n || b)
        end;
    cbv beta iota; count_events; rewrite Hf, Hw;
    (split; [eexists; split; [reflexivity | cbn [length]; lia]|]);
    first [ left; split; [reflexivity | exact Ht]
          | right; left; split; reflexivity
          | right; right; repeat split; reflexivity ].
Qed.



(** X18: the auth client falls back to [http://localhost:3000] when it is
    configured with an empty base URL and keeps any other base URL as it is;
    the chat client has no fallback, so an empty base URL gives it URLs that
    start with a slash. *)
Theorem base_url_default (base endpoint : string) :
  ApiAuthService.buildUrl
    (ApiAuthService.new {| ApiAuthService.cfg_baseUrl := "" |}) endpoint
  = "http://localhost:3000/" ++ without_leading_slash endpoint
  /\ (base <> "" ->
      ApiAuthService.buildUrl
        (ApiAuthService.new {| ApiAuthService.cfg_baseUrl := base |}) endpoint
      = base ++ "/" ++ without_leading_slash endpoint)
  /\ (forall timeout retryAttempts,
        ApiChatService.buildUrl
          (ApiChatService.new
             {| ApiChatService.cfg_baseUrl := "";
                ApiChatService.cfg_timeout := timeout;
                ApiChatService.cfg_retryAttempts := retryAttempts |}) endpoint
        = "/" ++ without_leading_slash endpoint).
Proof.
  unfold ApiAuthService.buildUrl, ApiChatService.buildUrl, ApiAuthService.new,
    ApiChatService.new, or_string.
  cbn [ApiAuthService.baseUrl ApiAuthService.cfg_baseUrl ApiChatService.baseUrl
         ApiChatService.cfg_baseUrl].
  rewrite starts_with_slash. repeat split.
  intros Hne. destruct (String.eqb_spec base ""); [contradiction | reflexivity].
Qed.

Lemma base_url_default_witness :
  ApiAuthService.buildUrl
    (ApiAuthService.new {| ApiAuthService.cfg_baseUrl := "https://api.example.com" |})
    "auth/me"
  = "https://api.example.com" ++ "/" ++ without_leading_slash "auth/me".
Proof.
  apply (proj1 (proj2 (base_url_default "https://api.example.com" "auth/me"))).
  discriminate.
Defined.

(** X19: the two copies of the pipeline agree: the auth client's
    [makeRequest] behaves exactly as the chat client's does on the same base
    URL when the caller's credentials mode is defaulted to ['include']. *)
Theorem pipelines_agree (P : platform) (base endpoint : string)
    (options : RequestInit) (w : world) :
  ApiAuthService.makeRequest P {| ApiAuthService.baseUrl := base |}
    endpoint options w
  = ApiChatService.makeRequest P {| ApiChatService.baseUrl := base |} endpoint
      {| method := method options;
         body := body options;
         headers := headers options;
         credentials := Some (match credentials options with
                              | Some c => c
                              | None => "include"
                              end) |} w.
Proof.
  rewrite auth_makeRequest_run, chat_makeRequest_run. cbv zeta.
  unfold auth_init, chat_init, sent_headers.
  cbn [method body headers credentials].
  destruct (credentials options); reflexivity.
Qed.

Lemma logout_clears (P : platform) (this : ApiAuthService.t) (w : world) :
  token (snd (ApiAuthService.logout P this w)) = VNull.
Proof.
  unfold ApiAuthService.logout. run_js. settle_pipeline; reflexivity.
Qed.

(** X20: once [logout] has run, whatever the backend answered, the next
    request of the chat client carries no [Authorization] header. *)
Theorem no_bearer_after_logout (P : platform) (auth : ApiAuthService.t)
    (chat : ApiChatService.t) (endpoint : string) (options : RequestInit)
    (w : world) :
  headers options = None ->
  let w1 := snd (ApiAuthService.logout P auth w) in
  fetches (trace (snd (ApiChatService.makeRequest P chat endpoint options w1)))
  = (fetches (trace w1)
       ++ [Fetch (ApiChatService.buildUrl chat endpoint)
             {| fi_method := method options;
                fi_body := body options;
                fi_headers := [("content-type", "application/json")];
                fi_credentials := credentials options |}])%list.
Proof.
  intros H. cbv zeta.
  destruct (chat_makeRequest_frame P chat endpoint options
              (snd (ApiAuthService.logout P auth w))) as (_ & _ & Hf).
  rewrite Hf. unfold chat_init.
  rewrite (sent_headers_default options _ H), logout_clears. reflexivity.
Qed.

Lemma no_bearer_after_logout_witness :
  let w1 := snd (ApiAuthService.logout Mock.unreachable Mock.auth Mock.signed_in) in
  fetches (trace (snd (ApiChatService.makeRequest Mock.unreachable Mock.chat
                         "/conversations" (ApiChatService.request "GET" None) w1)))
  = (fetches (trace w1)
       ++ [Fetch (ApiChatService.buildUrl Mock.chat "/conversations")
             {| fi_method := Some "GET";
                fi_body := None;
                fi_headers := [("content-type", "application/json")];
                fi_credentials := None |}])%list.
Proof.
  apply (no_bearer_after_logout Mock.unreachable Mock.auth Mock.chat
           "/conversations" (ApiChatService.request "GET" None) Mock.signed_in
           eq_refl).
Defined.




(** X22: [logout] reports a backend failure on the console and nowhere
    else: when the pipeline rejects with [e], it logs one warning carrying
    the normalized message of [e] and then clears the token; when the
    pipeline fulfils, it clears the token without logging anything. *)
Theorem logout_failure_logged (P : platform) (this : ApiAuthService.t)
    (w : world) :
  let run :=
    ApiAuthService.makeRequest P this "/auth/logout"
      (ApiAuthService.request "POST" None) w in
  ApiAuthService.logout P this w
  = (Fulfilled VUndefined,
     {| token := VNull;
        trace :=
          (trace (snd run)
             ++ match fst run with
                | Fulfilled _ => []
                | Rejected e =>
                    [Console "warn"
                       "[logout] Backend logout failed, proceeding with local logout:"
                       (VStr (ApiErrorHandler.handle e))]
                end
             ++ [ClearToken])%list |}).
Proof.
  cbv zeta. unfold ApiAuthService.logout. run_js.
  destruct (ApiAuthService.makeRequest P this "/auth/logout" _ w) as [[v|e] w1];
    cbn [fst snd token trace app]; rewrite <- ?app_assoc; reflexivity.
Qed.
